(** * keystatus: report keyboard status for i3blocks

    A shallow embedding of [keystatus.c].  The program opens the default X
    display, subscribes to three kinds of Xkb notifications and then loops:
    it renders the latched and locked modifiers and two accessibility controls
    as one line of words, and blocks until an event tells it that something
    changed.

    Integers of the C program ([int], [unsigned char], [unsigned int],
    [Status]) are values of [Z]; the bit tests [a & b] are [Z.land].  The two
    output streams are strings that grow at their end.  The X server is a
    record of what each Xlib query answers, together with the events that are
    queued on the connection and those that arrive later. *)

From Stdlib Require Import ZArith List String Ascii Bool Lia DecimalString.
Import ListNotations.

Local Open Scope Z_scope.
Local Open Scope string_scope.

(** ** Constants of the X headers

    [XKB.h] and [X.h] are not part of the repository: the program is
    parameterised by the four constants it takes from them. *)

Class XkbHeader : Type := {
  XkbStickyKeysMask : Z;
  XkbAccessXKeysMask : Z;
  XkbStateNotify : Z;
  Success : Z
}.

(** The values the X11 distribution gives them: [1L << 3], [1L << 6], event
    sub-type 2 and status 0. *)
Definition X11_header : XkbHeader :=
  {| XkbStickyKeysMask := Z.shiftl 1 3;
     XkbAccessXKeysMask := Z.shiftl 1 6;
     XkbStateNotify := 2;
     Success := 0 |}.

(** ** Data *)

(** A C string: [None] is the NULL pointer. *)
Definition cstr : Type := option string.

(** [struct ModifierEntry]. *)
Record ModifierEntry : Type := {
  value : Z;
  latched : cstr;
  locked : cstr
}.

(** The table [mods], sentinel included. *)
Definition mods : list ModifierEntry :=
  [ {| value := 1;            latched := Some "shift"; locked := Some "SHIFT" |};
    {| value := Z.shiftl 1 2; latched := Some "ctrl";  locked := Some "CTRL" |};
    {| value := Z.shiftl 1 3; latched := Some "alt";   locked := Some "ALT" |};
    {| value := Z.shiftl 1 6; latched := Some "super"; locked := Some "SUPER" |};
    {| value := 0;            latched := None;         locked := None |} ].

(** The fields of [XkbStateRec] the program reads. *)
Module XkbStateRec.
Record t : Type := mk {
  mods : Z;
  base_mods : Z;
  latched_mods : Z;
  locked_mods : Z
}.
End XkbStateRec.

(** The views of the [XkbEvent] union the program reads: [e.type],
    [e.any.xkb_type] and the four modifier fields of [e.state]. *)
Module XkbEvent.
Record t : Type := mk {
  type : Z;
  xkb_type : Z;
  mods : Z;
  base_mods : Z;
  latched_mods : Z;
  locked_mods : Z
}.
End XkbEvent.

(** A C integer used as a condition: true when it is not zero. *)
Definition truthy (z : Z) : bool := negb (Z.eqb z 0).

(** ** Standard output *)

(** [printf("%s", word)]; glibc prints a NULL string as [(null)]. *)
Definition fmt_s (word : cstr) : string :=
  match word with
  | Some w => w
  | None => "(null)"
  end.

(** [printf("%d", n)]. *)
Definition fmt_d (n : Z) : string := NilZero.string_of_int (Z.to_int n).

(** [putc(c, stdout)]. *)
Definition putc (c : ascii) (out : string) : string := out ++ String c "".

(** The newline character. *)
Definition nl : ascii := ascii_of_nat 10.

(** The text written so far together with the flag [is_first]. *)
Definition printer : Type := (string * bool)%type.

(** [print_word]: a space before every word but the first. *)
Definition print_word (word : cstr) (p : printer) : printer :=
  let '(out, first) := p in
  if negb first
  then (putc " " out ++ fmt_s word, first)
  else (out ++ fmt_s word, false).

(** The [for] loop over [mods]: it stops at the first entry whose [value] is
    zero; for the others the latched test comes first. *)
Fixpoint print_mods (tbl : list ModifierEntry) (state : XkbStateRec.t)
    (p : printer) : printer :=
  match tbl with
  | [] => p
  | e :: tbl' =>
      if negb (Z.eqb (value e) 0) then
        let p' :=
          if truthy (Z.land (XkbStateRec.latched_mods state) (value e))
          then print_word (latched e) p
          else if truthy (Z.land (XkbStateRec.locked_mods state) (value e))
          then print_word (locked e) p
          else p in
        print_mods tbl' state p'
      else p
  end.

(** ** The X server and the connection

    Time advances only while the program is blocked in [XNextEvent] on an
    empty queue: an [Arrival] brings the events that were delivered together
    and the answers the server gives from then on. *)

Record Server : Type := {
  state_status : Z;            (* what [XkbGetState] returns *)
  state : XkbStateRec.t;       (* the struct [XkbGetState] was given, after the call *)
  ctrls_status : Z;            (* what [XkbGetControls] returns *)
  enabled_ctrls : Z            (* [xkb->ctrls->enabled_ctrls] after the call *)
}.

Record Arrival : Type := {
  arr_server : Server;
  arr_events : list XkbEvent.t
}.

Record Display : Type := {
  server : Server;
  queue : list XkbEvent.t;
  future : list Arrival
}.

(** The first event of the arrivals to come, if there is one. *)
Fixpoint next_arrival (fut : list Arrival) : option (XkbEvent.t * Display) :=
  match fut with
  | [] => None
  | a :: fut' =>
      match arr_events a with
      | [] => next_arrival fut'
      | e :: q => Some (e, {| server := arr_server a; queue := q; future := fut' |})
      end
  end.

(** [XNextEvent]: the head of the queue, or the next event to arrive; [None]
    when no event ever arrives, and the call blocks for ever. *)
Definition XNextEvent (d : Display) : option (XkbEvent.t * Display) :=
  match queue d with
  | e :: q => Some (e, {| server := server d; queue := q; future := future d |})
  | [] => next_arrival (future d)
  end.

(** [XPending]: the number of queued events. *)
Definition XPending (d : Display) : Z := Z.of_nat (List.length (queue d)).

(** [while (XPending(display)) XNextEvent(display, &e.core);] *)
Fixpoint consume (q : list XkbEvent.t) : list XkbEvent.t :=
  match q with
  | [] => []
  | _ :: q' => consume q'
  end.

Definition drain (d : Display) : Display :=
  if truthy (XPending d)
  then {| server := server d; queue := consume (queue d); future := future d |}
  else d.

(** The events the connection still has to deliver. *)
Definition events_left (d : Display) : nat :=
  (List.length (queue d) + List.length (flat_map arr_events (future d)))%nat.

(** ** The process *)

Record Stdio : Type := {
  stdout : string;
  stderr : string
}.

Inductive Final : Type :=
| Exited (code : Z)      (* [exit(code)], or [return code] from [main] *)
| Blocked                (* suspended in [XNextEvent] for ever *)
| OutOfFuel.

(** The environment [main] starts in: the value of [DISPLAY] and the results
    of the three calls made before the loop. *)
Record Env : Type := {
  DISPLAY : cstr;
  XkbOpenDisplay : option (Display * Z);   (* the display and [*event_rtrn] *)
  XkbGetKeyboard : bool;                   (* whether the pointer is not 0 *)
  XkbSelectEvents : Z
}.

Section Program.

Context {hdr : XkbHeader}.

(** The two tests on [xkb->ctrls->enabled_ctrls]. *)
Definition print_ctrls (enabled_ctrls : Z) (p : printer) : printer :=
  let p :=
    if truthy (Z.land enabled_ctrls XkbStickyKeysMask)
    then print_word (Some "sticky") p
    else p in
  if truthy (Z.land enabled_ctrls XkbAccessXKeysMask)
  then print_word (Some "accessx") p
  else p.

(** What one pass of the outer loop writes when the controls are fetched
    successfully, on an empty output. *)
Definition status_line (st : XkbStateRec.t) (ctrls : Z) : string :=
  putc nl (fst (print_ctrls ctrls (print_mods mods st ("", true)))).

Inductive Reported : Type :=
| Printed (io : Stdio)
| Fatal (code : Z) (io : Stdio).

(** The first half of the outer loop's body: fetch the state (its status is
    dropped), print the modifier words, fetch the controls, and either give up
    or print the control words and end the line. *)
Definition report (d : Display) (io : Stdio) : Reported :=
  let is_first := true in
  let st := state (server d) in
  let p := print_mods mods st (stdout io, is_first) in
  let status := ctrls_status (server d) in
  if negb (Z.eqb status Success) then
    Fatal 1 {| stdout := fst p;
               stderr := stderr io ++ "XkbGetControls() returned " ++ fmt_d status |}
  else
    let p := print_ctrls (enabled_ctrls (server d)) p in
    Printed {| stdout := putc nl (fst p); stderr := stderr io |}.

Inductive Waited : Type :=
| Woken (d : Display)
| Asleep
| Spinning.

(** The inner loop.  [st] is the state fetched by this pass of the outer
    loop. *)
Fixpoint wait_loop (fuel : nat) (xkb_event_type : Z) (st : XkbStateRec.t)
    (d : Display) : Waited :=
  match fuel with
  | O => Spinning
  | S fuel' =>
      match XNextEvent d with
      | None => Asleep
      | Some (e, d) =>
          if Z.eqb (XkbEvent.type e) xkb_event_type then
            if Z.eqb (XkbEvent.xkb_type e) XkbStateNotify
               && (Z.eqb (XkbEvent.mods e) (XkbStateRec.mods st)
                   && Z.eqb (XkbEvent.base_mods e) (XkbStateRec.base_mods st)
                   && Z.eqb (XkbEvent.latched_mods e) (XkbStateRec.latched_mods st)
                   && Z.eqb (XkbEvent.locked_mods e) (XkbStateRec.locked_mods st))
            then wait_loop fuel' xkb_event_type st d
            else Woken (drain d)
          else wait_loop fuel' xkb_event_type st d
      end
  end.

(** Every turn of the inner loop takes an event, so this much fuel is
    enough (lemma [wait_loop_enough]). *)
Definition wait_for_change (xkb_event_type : Z) (st : XkbStateRec.t)
    (d : Display) : Waited :=
  wait_loop (S (events_left d)) xkb_event_type st d.

(** The outer loop. *)
Fixpoint main_loop (fuel : nat) (xkb_event_type : Z) (d : Display)
    (io : Stdio) : Final * Stdio :=
  match fuel with
  | O => (OutOfFuel, io)
  | S fuel' =>
      match report d io with
      | Fatal code io => (Exited code, io)
      | Printed io =>
          match wait_for_change xkb_event_type (state (server d)) d with
          | Woken d => main_loop fuel' xkb_event_type d io
          | Asleep => (Blocked, io)
          | Spinning => (OutOfFuel, io)
          end
      end
  end.

(** [open_default_display] and [main]. *)
Definition open_default_display (env : Env) (io : Stdio)
  : (Display * Z) + Final * Stdio :=
  match XkbOpenDisplay env with
  | None =>
      inr (Exited 1,
           {| stdout := stdout io;
              stderr := stderr io ++ "Failed to initialize Xkb extension for display "
                          ++ fmt_s (DISPLAY env) ++ String nl "" |})
  | Some display => inl display
  end.

Definition main (fuel : nat) (env : Env) : Final * Stdio :=
  let io := {| stdout := ""; stderr := "" |} in
  match open_default_display env io with
  | inr stop => stop
  | inl (display, xkb_event_type) =>
      if negb (XkbGetKeyboard env) then
        (Exited 1,
         {| stdout := stdout io;
            stderr := stderr io ++ "XkbGetKeyboard() failed for display '"
                        ++ fmt_s (DISPLAY env) ++ "'" ++ String nl "" |})
      else if negb (truthy (XkbSelectEvents env)) then
        (Exited 1,
         {| stdout := stdout io;
            stderr := stderr io ++ "XkbSelectEvents() failed" ++ String nl "" |})
      else main_loop fuel xkb_event_type display io
  end.

End Program.

(** ** The line as a list of words

    The words one pass prints, as the table and the two control tests select
    them; [print_mods] and [print_ctrls] are shown below to print exactly
    these, separated by single spaces. *)

Definition entry_word (st : XkbStateRec.t) (e : ModifierEntry) : option string :=
  if truthy (Z.land (XkbStateRec.latched_mods st) (value e))
  then Some (fmt_s (latched e))
  else if truthy (Z.land (XkbStateRec.locked_mods st) (value e))
  then Some (fmt_s (locked e))
  else None.

Definition opt_word (o : option string) : list string :=
  match o with
  | Some w => [w]
  | None => []
  end.

(** The entries in front of the sentinel. *)
Fixpoint entries (tbl : list ModifierEntry) : list ModifierEntry :=
  match tbl with
  | [] => []
  | e :: tbl' => if Z.eqb (value e) 0 then [] else e :: entries tbl'
  end.

Definition mod_words (tbl : list ModifierEntry) (st : XkbStateRec.t) : list string :=
  flat_map (fun e => opt_word (entry_word st e)) (entries tbl).

Definition ctrl_words {hdr : XkbHeader} (ctrls : Z) : list string :=
  (if truthy (Z.land ctrls XkbStickyKeysMask) then ["sticky"] else [])
  ++ (if truthy (Z.land ctrls XkbAccessXKeysMask) then ["accessx"] else []).

Definition words {hdr : XkbHeader} (st : XkbStateRec.t) (ctrls : Z) : list string :=
  mod_words mods st ++ ctrl_words ctrls.

(** The printer after the words [ws] were printed behind [out]. *)
Definition emit (out : string) (ws : list string) : printer :=
  (out ++ String.concat " " ws, match ws with [] => true | _ :: _ => false end).

(** Reading a line back: the fields between single spaces, up to the
    newline. *)
Fixpoint fields (s : string) : list string :=
  match s with
  | EmptyString => [""]
  | String c s' =>
      if Ascii.eqb c nl then [""]
      else if Ascii.eqb c " " then "" :: fields s'
      else match fields s' with
           | w :: ws => String c w :: ws
           | [] => [String c ""]
           end
  end.

Definition line_words (line : string) : list string :=
  match line with
  | String c EmptyString => if Ascii.eqb c nl then [] else fields line
  | _ => fields line
  end.

(** A word has at least one character and neither a space nor a newline. *)
Fixpoint plain (s : string) : bool :=
  match s with
  | EmptyString => true
  | String c s' => negb (Ascii.eqb c " ") && negb (Ascii.eqb c nl) && plain s'
  end.

Definition is_word (w : string) : bool :=
  negb (String.eqb w "") && plain w.

(** A modifier word: a label of an entry of the table. *)
Definition modifier_word (w : string) : Prop :=
  exists e, In e (entries mods) /\ (latched e = Some w \/ locked e = Some w).

(** The newline as a string. *)
Definition endl : string := String nl "".

(** Where a scan of the line stands: nothing read yet, just behind a space, or
    just behind a character of a word. *)
Inductive scan_state : Type := AtStart | AfterSpace | AfterChar.

(** The line is well spaced when no space stands at its start, behind another
    space or in front of the newline, and the newline is its last character. *)
Fixpoint well_spaced_from (q : scan_state) (s : string) : bool :=
  match s with
  | EmptyString => false
  | String c s' =>
      if Ascii.eqb c nl then
        match q with AfterSpace => false | _ => String.eqb s' "" end
      else if Ascii.eqb c " " then
        match q with AfterChar => well_spaced_from AfterSpace s' | _ => false end
      else well_spaced_from AfterChar s'
  end.

Definition well_spaced (line : string) : bool := well_spaced_from AtStart line.

(** ** Views of the program used in the statements *)

(** The bits the table tests. *)
Definition table_bits : list Z := [1; Z.shiftl 1 2; Z.shiftl 1 3; Z.shiftl 1 6].

(** The test of the inner loop: an event of the extension that is not a state
    notification repeating the four masks of [st]. *)
Definition relevant {hdr : XkbHeader} (xkb_event_type : Z) (st : XkbStateRec.t)
    (e : XkbEvent.t) : bool :=
  Z.eqb (XkbEvent.type e) xkb_event_type
  && negb (Z.eqb (XkbEvent.xkb_type e) XkbStateNotify
           && (Z.eqb (XkbEvent.mods e) (XkbStateRec.mods st)
               && Z.eqb (XkbEvent.base_mods e) (XkbStateRec.base_mods st)
               && Z.eqb (XkbEvent.latched_mods e) (XkbStateRec.latched_mods st)
               && Z.eqb (XkbEvent.locked_mods e) (XkbStateRec.locked_mods st))).

(** The events the connection has still to deliver, in order. *)
Definition pending (d : Display) : list XkbEvent.t :=
  (queue d ++ flat_map arr_events (future d))%list.

(** The line of a server's answers, spelled out: the applicable words of the
    table and of the two controls, in this order, with one space between two
    of them and a newline behind the last. *)
Definition line_text {hdr : XkbHeader} (srv : Server) : string :=
  String.concat " " (words (state srv) (enabled_ctrls srv)) ++ endl.

(** [discards xkb_event_type st d0 d]: a wait that starts on [d0] with the
    fetched state [st] comes to [d] by taking events that do not count. *)
Inductive discards {hdr : XkbHeader} (xkb_event_type : Z) (st : XkbStateRec.t)
  : Display -> Display -> Prop :=
| discards_refl (d : Display) : discards xkb_event_type st d d
| discards_step (d0 d0' d : Display) (x : XkbEvent.t) :
    XNextEvent d0 = Some (x, d0') ->
    relevant xkb_event_type st x = false ->
    discards xkb_event_type st d0' d ->
    discards xkb_event_type st d0 d.

(** The output after one more status line for the server of [d]. *)
Definition printed {hdr : XkbHeader} (d : Display) (io : Stdio) : Stdio :=
  {| stdout := stdout io
               ++ status_line (state (server d)) (enabled_ctrls (server d));
     stderr := stderr io |}.

(** Whether the text ends with a newline. *)
Fixpoint ends_line (s : string) : bool :=
  match s with
  | EmptyString => false
  | String c EmptyString => Ascii.eqb c nl
  | String _ s' => ends_line s'
  end.

(** The same server and connection, with [f] applied to every status
    [XkbGetState] returns, now and later. *)
Definition restatus_server (f : Z -> Z) (srv : Server) : Server :=
  {| state_status := f (state_status srv);
     state := state srv;
     ctrls_status := ctrls_status srv;
     enabled_ctrls := enabled_ctrls srv |}.

Definition restatus_arrival (f : Z -> Z) (a : Arrival) : Arrival :=
  {| arr_server := restatus_server f (arr_server a);
     arr_events := arr_events a |}.

Definition restatus (f : Z -> Z) (d : Display) : Display :=
  {| server := restatus_server f (server d);
     queue := queue d;
     future := map (restatus_arrival f) (future d) |}.

Definition restatus_waited (f : Z -> Z) (w : Waited) : Waited :=
  match w with
  | Woken d => Woken (restatus f d)
  | Asleep => Asleep
  | Spinning => Spinning
  end.

(** ** Views used for the further properties *)

(** What the loop over the table does for one entry, given the outcome of its
    two tests. *)
Definition pick (l k : bool) (e : ModifierEntry) (p : printer) : printer :=
  if l then print_word (latched e) p
  else if k then print_word (locked e) p
  else p.

(** The line as a function of the ten tests one pass makes: latched and locked
    for each of the four entries, then the two controls. *)
Definition render (l1 k1 l2 k2 l3 k3 l4 k4 s a : bool) : string :=
  let p := ("", true) in
  let p := pick l1 k1 {| value := 1; latched := Some "shift"; locked := Some "SHIFT" |} p in
  let p := pick l2 k2 {| value := 4; latched := Some "ctrl"; locked := Some "CTRL" |} p in
  let p := pick l3 k3 {| value := 8; latched := Some "alt"; locked := Some "ALT" |} p in
  let p := pick l4 k4 {| value := 64; latched := Some "super"; locked := Some "SUPER" |} p in
  let p := if s then print_word (Some "sticky") p else p in
  let p := if a then print_word (Some "accessx") p else p in
  putc nl (fst p).

(** The place of a word in the order of the output: one place for the two
    words of an entry, then the two controls; 6 for any other text. *)
Definition slot (w : string) : nat :=
  if String.eqb w "shift" || String.eqb w "SHIFT" then 0
  else if String.eqb w "ctrl" || String.eqb w "CTRL" then 1
  else if String.eqb w "alt" || String.eqb w "ALT" then 2
  else if String.eqb w "super" || String.eqb w "SUPER" then 3
  else if String.eqb w "sticky" then 4
  else if String.eqb w "accessx" then 5
  else 6.

(** Strictly increasing, and below [bound]. *)
Fixpoint increasing_below (bound : nat) (ns : list nat) : bool :=
  match ns with
  | [] => true
  | n :: ns' =>
      Nat.ltb n bound
      && match ns' with
         | [] => true
         | m :: _ => Nat.ltb n m
         end
      && increasing_below bound ns'
  end.

(** What the line shows of one bit of the table. *)
Inductive shown : Type := Latched | Locked | Off.

Definition shown_of (st : XkbStateRec.t) (v : Z) : shown :=
  if truthy (Z.land (XkbStateRec.latched_mods st) v) then Latched
  else if truthy (Z.land (XkbStateRec.locked_mods st) v) then Locked
  else Off.

(** What a line shows: the four bits of the table and the two controls. *)
Definition view {hdr : XkbHeader} (st : XkbStateRec.t) (ctrls : Z)
  : list shown * bool * bool :=
  (map (shown_of st) table_bits,
   truthy (Z.land ctrls XkbStickyKeysMask),
   truthy (Z.land ctrls XkbAccessXKeysMask)).

(** The answers of the server, now and after each arrival. *)
Definition servers (d : Display) : list Server :=
  server d :: map arr_server (future d).

(** The status lines of a list of servers, one after the other. *)
Definition lines {hdr : XkbHeader} (srvs : list Server) : string :=
  String.concat "" (map (fun srv => status_line (state srv) (enabled_ctrls srv)) srvs).

(** The number of newlines of a text. *)
Fixpoint count_nl (s : string) : nat :=
  match s with
  | EmptyString => 0
  | String c s' => (if Ascii.eqb c nl then 1 else 0) + count_nl s'
  end.

(** Case analysis on an entry in front of the sentinel of [mods]. *)
Ltac each_entry H :=
  let tbl := eval vm_compute in (entries mods) in
  change (entries mods) with tbl in H; simpl in H;
  destruct H as [H|[H|[H|[H|[]]]]]; subst.

(** ** Strings *)

Lemma append_nil_r (s : string) : s ++ "" = s.
Proof. induction s as [|c s IH]; simpl; [reflexivity | now rewrite IH]. Qed.

Lemma append_assoc (a b c : string) : (a ++ b) ++ c = a ++ (b ++ c).
Proof. induction a as [|x a IH]; simpl; [reflexivity | now rewrite IH]. Qed.

Lemma concat_snoc (sep w a : string) (ws : list string) :
  String.concat sep ((a :: ws) ++ [w]) = String.concat sep (a :: ws) ++ sep ++ w.
Proof.
  revert a; induction ws as [|b ws IH]; intros a.
  - reflexivity.
  - change (a ++ sep ++ String.concat sep ((b :: ws) ++ [w])
            = (a ++ sep ++ String.concat sep (b :: ws)) ++ sep ++ w).
    rewrite IH, !append_assoc. reflexivity.
Qed.

(** ** The printer prints the words *)

Lemma print_word_emit (out w : string) (ws : list string) :
  print_word (Some w) (emit out ws) = emit out (ws ++ [w]).
Proof.
  destruct ws as [|a ws]; unfold emit, print_word, putc.
  - simpl. now rewrite !append_nil_r.
  - rewrite concat_snoc. cbn [negb app].
    rewrite !append_assoc. reflexivity.
Qed.

Lemma print_cstr_emit (out : string) (c : cstr) (ws : list string) :
  print_word c (emit out ws) = emit out (ws ++ [fmt_s c]).
Proof.
  destruct c as [w|]; [apply print_word_emit|].
  change (print_word None) with (print_word (Some (fmt_s None))).
  apply print_word_emit.
Qed.

Lemma print_mods_emit (tbl : list ModifierEntry) (st : XkbStateRec.t)
    (out : string) (ws : list string) :
  print_mods tbl st (emit out ws) = emit out (ws ++ mod_words tbl st).
Proof.
  unfold mod_words.
  revert ws; induction tbl as [|e tbl IH]; intros ws;
    cbn [print_mods entries flat_map].
  - now rewrite app_nil_r.
  - destruct (Z.eqb (value e) 0); cbn [negb flat_map].
    + now rewrite app_nil_r.
    + unfold entry_word.
      destruct (truthy (Z.land (XkbStateRec.latched_mods st) (value e))).
      * rewrite print_cstr_emit, IH, <- app_assoc. reflexivity.
      * destruct (truthy (Z.land (XkbStateRec.locked_mods st) (value e))).
        -- rewrite print_cstr_emit, IH, <- app_assoc. reflexivity.
        -- apply IH.
Qed.

Lemma print_ctrls_emit {hdr : XkbHeader} (ctrls : Z) (out : string)
    (ws : list string) :
  print_ctrls ctrls (emit out ws) = emit out (ws ++ ctrl_words ctrls).
Proof.
  unfold print_ctrls, ctrl_words.
  destruct (truthy (Z.land ctrls XkbStickyKeysMask));
    destruct (truthy (Z.land ctrls XkbAccessXKeysMask));
    rewrite ?print_word_emit, <- ?app_assoc, ?app_nil_r; reflexivity.
Qed.

Lemma emit_nil (out : string) : emit out [] = (out, true).
Proof. unfold emit. simpl. now rewrite append_nil_r. Qed.

(** One successful pass appends the words and a newline to the output. *)
Lemma status_line_words {hdr : XkbHeader} (st : XkbStateRec.t) (ctrls : Z) :
  status_line st ctrls = String.concat " " (words st ctrls) ++ String nl "".
Proof.
  unfold status_line, words.
  rewrite <- (emit_nil ""), print_mods_emit, print_ctrls_emit.
  reflexivity.
Qed.

Lemma report_Success {hdr : XkbHeader} (d : Display) (io : Stdio) :
  ctrls_status (server d) = Success ->
  report d io =
  Printed {| stdout := stdout io ++ status_line (state (server d)) (enabled_ctrls (server d));
             stderr := stderr io |}.
Proof.
  intros H. unfold report. rewrite H, Z.eqb_refl. cbn [negb].
  rewrite status_line_words.
  rewrite <- (emit_nil (stdout io)), print_mods_emit, print_ctrls_emit.
  unfold emit, putc, words. cbn [fst app]. now rewrite append_assoc.
Qed.

Lemma report_failure {hdr : XkbHeader} (d : Display) (io : Stdio) :
  ctrls_status (server d) <> Success ->
  report d io =
  Fatal 1 {| stdout := stdout io ++ String.concat " " (mod_words mods (state (server d)));
             stderr := stderr io ++ "XkbGetControls() returned "
                         ++ fmt_d (ctrls_status (server d)) |}.
Proof.
  intros H. unfold report.
  apply Z.eqb_neq in H. rewrite H. cbn [negb].
  rewrite <- (emit_nil (stdout io)), print_mods_emit. reflexivity.
Qed.

(** ** Reading the words back from the line *)

Lemma fields_nonempty (s : string) : fields s <> [].
Proof.
  induction s as [|c s IH]; simpl; [discriminate|].
  destruct (Ascii.eqb c nl); [discriminate|].
  destruct (Ascii.eqb c " "); [discriminate|].
  destruct (fields s); discriminate.
Qed.

Lemma fields_plain_app (w rest : string) :
  plain w = true ->
  fields (w ++ rest) =
  match fields rest with
  | x :: xs => (w ++ x) :: xs
  | [] => [w]
  end.
Proof.
  induction w as [|c w IH]; intros Hw.
  - simpl. pose proof (fields_nonempty rest) as Hne.
    destruct (fields rest); [contradiction | reflexivity].
  - simpl in Hw. apply andb_prop in Hw as [Hc Hw].
    apply andb_prop in Hc as [Hsp Hnl].
    apply negb_true_iff in Hsp, Hnl.
    cbn [append fields]. rewrite Hsp, Hnl, (IH Hw).
    pose proof (fields_nonempty rest) as Hne.
    destruct (fields rest); [contradiction | reflexivity].
Qed.

Lemma fields_concat (w : string) (ws : list string) :
  Forall (fun x => is_word x = true) (w :: ws) ->
  fields (String.concat " " (w :: ws) ++ endl) = w :: ws.
Proof.
  revert w; induction ws as [|b ws IH]; intros w Hall.
  - inversion Hall as [|? ? Hw _]; subst.
    apply andb_prop in Hw as [_ Hw].
    cbn [String.concat]. rewrite (fields_plain_app _ _ Hw).
    simpl. now rewrite append_nil_r.
  - inversion Hall as [|? ? Hw Hrest]; subst.
    apply andb_prop in Hw as [_ Hw].
    change (String.concat " " (w :: b :: ws))
      with (w ++ " " ++ String.concat " " (b :: ws)).
    rewrite !append_assoc, (fields_plain_app _ _ Hw).
    change (fields (" " ++ String.concat " " (b :: ws) ++ endl))
      with ("" :: fields (String.concat " " (b :: ws) ++ endl)).
    rewrite (IH b Hrest), append_nil_r. reflexivity.
Qed.

Lemma line_words_concat (ws : list string) :
  Forall (fun x => is_word x = true) ws ->
  line_words (String.concat " " ws ++ endl) = ws.
Proof.
  intros Hall. destruct ws as [|w ws]; [reflexivity|].
  rewrite <- (fields_concat w ws Hall) at 2.
  inversion Hall as [|? ? Hw _]; subst.
  destruct w as [|c w]; [discriminate|].
  apply andb_prop in Hw as [_ Hw]. simpl in Hw.
  apply andb_prop in Hw as [Hc _]. apply andb_prop in Hc as [_ Hnl].
  apply negb_true_iff in Hnl.
  unfold line_words.
  destruct ws as [|b ws].
  - cbn [String.concat append]. destruct (w ++ endl); [|reflexivity].
    now rewrite Hnl.
  - change (String.concat " " (String c w :: b :: ws) ++ endl)
      with (String c ((w ++ " " ++ String.concat " " (b :: ws)) ++ endl)).
    destruct ((w ++ " " ++ String.concat " " (b :: ws)) ++ endl); [|reflexivity].
    now rewrite Hnl.
Qed.

(** ** The table *)

Lemma entries_mods :
  entries mods =
  [ {| value := 1; latched := Some "shift"; locked := Some "SHIFT" |};
    {| value := 4; latched := Some "ctrl"; locked := Some "CTRL" |};
    {| value := 8; latched := Some "alt"; locked := Some "ALT" |};
    {| value := 64; latched := Some "super"; locked := Some "SUPER" |} ].
Proof. reflexivity. Qed.

Lemma in_mods_entries (e : ModifierEntry) :
  In e mods -> value e <> 0 -> In e (entries mods).
Proof.
  rewrite entries_mods. unfold mods. simpl.
  intros [H|[H|[H|[H|[H|[]]]]]] Hv; subst; auto.
  now contradiction Hv.
Qed.

Lemma entry_word_label (st : XkbStateRec.t) (e : ModifierEntry) (w : string) :
  In e (entries mods) -> entry_word st e = Some w ->
  latched e = Some w \/ locked e = Some w.
Proof.
  intros He. unfold entry_word.
  destruct (truthy _); [|destruct (truthy _); [|discriminate]];
    each_entry He; simpl; intros [= <-]; auto.
Qed.

Lemma in_mod_words (st : XkbStateRec.t) (w : string) :
  In w (mod_words mods st) <->
  exists e, In e (entries mods) /\ entry_word st e = Some w.
Proof.
  unfold mod_words. rewrite in_flat_map. split; intros [e [He Hw]]; exists e.
  - split; [assumption|]. destruct (entry_word st e); simpl in Hw; [|contradiction].
    destruct Hw as [->|[]]. reflexivity.
  - split; [assumption|]. rewrite Hw. now left.
Qed.

Lemma mod_words_modifier (st : XkbStateRec.t) :
  Forall modifier_word (mod_words mods st).
Proof.
  apply Forall_forall. intros w Hw. apply in_mod_words in Hw as [e [He Hw]].
  exists e. split; [assumption|]. now apply (entry_word_label st).
Qed.

Lemma modifier_word_is_word (w : string) : modifier_word w -> is_word w = true.
Proof.
  intros [e [He [H|H]]]; each_entry He; simpl in H; injection H as <-; reflexivity.
Qed.

Lemma ctrl_word_not_modifier (w : string) :
  w = "sticky" \/ w = "accessx" -> ~ modifier_word w.
Proof.
  intros Hw [e [He [H|H]]]; each_entry He; simpl in H; injection H as <-;
    destruct Hw; discriminate.
Qed.

Lemma in_ctrl_words {hdr : XkbHeader} (ctrls : Z) (w : string) :
  In w (ctrl_words ctrls) -> w = "sticky" \/ w = "accessx".
Proof.
  unfold ctrl_words.
  destruct (truthy _); destruct (truthy _); simpl; intuition auto.
Qed.

Lemma words_are_words {hdr : XkbHeader} (st : XkbStateRec.t) (ctrls : Z) :
  Forall (fun w => is_word w = true) (words st ctrls).
Proof.
  unfold words. apply Forall_app. split.
  - eapply Forall_impl; [|apply mod_words_modifier].
    apply modifier_word_is_word.
  - apply Forall_forall. intros w Hw.
    apply in_ctrl_words in Hw as [->| ->]; reflexivity.
Qed.

Lemma line_words_status_line {hdr : XkbHeader} (st : XkbStateRec.t) (ctrls : Z) :
  line_words (status_line st ctrls) = words st ctrls.
Proof.
  rewrite status_line_words. apply line_words_concat, words_are_words.
Qed.

Lemma truthy_true (z : Z) : truthy z = true <-> z <> 0.
Proof.
  unfold truthy. rewrite negb_true_iff. apply Z.eqb_neq.
Qed.

Lemma truthy_false (z : Z) : truthy z = false <-> z = 0.
Proof.
  unfold truthy. rewrite negb_false_iff. apply Z.eqb_eq.
Qed.

(** ** The status line *)

(** C1, as the specification words it, fails: with shift and alt latched,
    ctrl locked, sticky keys enabled and AccessX keys disabled the line is not
    [shift alt CTRL sticky]. *)
Lemma worked_example_refuted :
  let st := XkbStateRec.mk 13 0 (Z.lor 1 (Z.shiftl 1 3)) (Z.shiftl 1 2) in
  let ctrls := Z.shiftl 1 3 in
  Z.land ctrls (@XkbStickyKeysMask X11_header) <> 0 /\
  Z.land ctrls (@XkbAccessXKeysMask X11_header) = 0 /\
  @status_line X11_header st ctrls <> "shift alt CTRL sticky" ++ endl.
Proof. vm_compute. repeat split; discriminate. Qed.

(** C1, amended: with the latched modifiers shift-bit|alt-bit, the locked
    modifiers ctrl-bit, sticky keys enabled and AccessX keys disabled, one pass
    prints the words in the order of the table, [shift CTRL alt sticky], and a
    newline. *)
Theorem worked_example {hdr : XkbHeader} (st : XkbStateRec.t) (ctrls : Z) :
  XkbStateRec.latched_mods st = Z.lor 1 (Z.shiftl 1 3) ->
  XkbStateRec.locked_mods st = Z.shiftl 1 2 ->
  Z.land ctrls XkbStickyKeysMask <> 0 ->
  Z.land ctrls XkbAccessXKeysMask = 0 ->
  status_line st ctrls = "shift CTRL alt sticky" ++ endl.
Proof.
  intros Hl Hk Hs Ha.
  apply truthy_true in Hs. apply truthy_false in Ha.
  unfold status_line, print_ctrls. cbn [mods print_mods value latched locked].
  rewrite Hl, Hk, Hs, Ha. reflexivity.
Qed.

Lemma worked_example_witness :
  @status_line X11_header
    (XkbStateRec.mk 13 0 (Z.lor 1 (Z.shiftl 1 3)) (Z.shiftl 1 2)) (Z.shiftl 1 3)
  = "shift CTRL alt sticky" ++ endl.
Proof.
  apply (@worked_example X11_header); [reflexivity | reflexivity | | reflexivity].
  vm_compute. discriminate.
Defined.

(** Two different labels of the table never coincide, and neither control word
    is a label. *)
Lemma latched_label_unique (e e' : ModifierEntry) (w : string) :
  In e (entries mods) -> In e' (entries mods) ->
  latched e = Some w -> (latched e' = Some w -> e' = e) /\ locked e' <> Some w.
Proof.
  intros He He' Hw; each_entry He; each_entry He'; simpl in *;
    injection Hw as <-; split; solve [reflexivity | discriminate].
Qed.

Lemma locked_label_unique (e e' : ModifierEntry) (w : string) :
  In e (entries mods) -> In e' (entries mods) ->
  locked e = Some w -> (locked e' = Some w -> e' = e) /\ latched e' <> Some w.
Proof.
  intros He He' Hw; each_entry He; each_entry He'; simpl in *;
    injection Hw as <-; split; solve [reflexivity | discriminate].
Qed.

Lemma entry_labels_some (e : ModifierEntry) :
  In e (entries mods) ->
  latched e = Some (fmt_s (latched e)) /\ locked e = Some (fmt_s (locked e)).
Proof. intros He; each_entry He; split; reflexivity. Qed.

Lemma in_words {hdr : XkbHeader} (st : XkbStateRec.t) (ctrls : Z) (w : string) :
  modifier_word w ->
  In w (words st ctrls) <->
  exists e, In e (entries mods) /\ entry_word st e = Some w.
Proof.
  intros Hm. unfold words. rewrite in_app_iff, in_mod_words.
  split; [|now left].
  intros [H|H]; [assumption|].
  apply in_ctrl_words in H. now apply ctrl_word_not_modifier in H.
Qed.

Lemma in_words_latched {hdr : XkbHeader} (st : XkbStateRec.t) (ctrls : Z)
    (e : ModifierEntry) (w : string) :
  In e (entries mods) -> latched e = Some w ->
  In w (words st ctrls) <-> Z.land (XkbStateRec.latched_mods st) (value e) <> 0.
Proof.
  intros He Hw.
  rewrite in_words by (exists e; auto).
  rewrite <- truthy_true. split.
  - intros [e' [He' Hword]].
    destruct (latched_label_unique e e' w He He' Hw) as [Hsame Hother].
    destruct (entry_labels_some e' He') as [Hl Hk].
    unfold entry_word in Hword.
    destruct (truthy (Z.land (XkbStateRec.latched_mods st) (value e'))) eqn:HL.
    + rewrite <- Hsame; [assumption|]. rewrite Hl. exact Hword.
    + destruct (truthy (Z.land (XkbStateRec.locked_mods st) (value e')));
        [|discriminate].
      contradiction Hother. rewrite Hk. exact Hword.
  - intros HL. exists e. split; [assumption|].
    unfold entry_word. rewrite HL, Hw. reflexivity.
Qed.

Lemma in_words_locked {hdr : XkbHeader} (st : XkbStateRec.t) (ctrls : Z)
    (e : ModifierEntry) (w : string) :
  In e (entries mods) -> locked e = Some w ->
  In w (words st ctrls) <->
  Z.land (XkbStateRec.locked_mods st) (value e) <> 0
  /\ Z.land (XkbStateRec.latched_mods st) (value e) = 0.
Proof.
  intros He Hw.
  rewrite in_words by (exists e; auto).
  rewrite <- truthy_true, <- truthy_false. split.
  - intros [e' [He' Hword]].
    destruct (locked_label_unique e e' w He He' Hw) as [Hsame Hother].
    destruct (entry_labels_some e' He') as [Hl Hk].
    unfold entry_word in Hword.
    destruct (truthy (Z.land (XkbStateRec.latched_mods st) (value e'))) eqn:HL.
    + contradiction Hother. rewrite Hl. exact Hword.
    + destruct (truthy (Z.land (XkbStateRec.locked_mods st) (value e'))) eqn:HK;
        [|discriminate].
      rewrite <- Hsame; [auto|]. rewrite Hk. exact Hword.
  - intros [HK HL]. exists e. split; [assumption|].
    unfold entry_word. rewrite HL, HK, Hw. reflexivity.
Qed.

(** C2: for an entry of the table with latched word [lw] and locked word [kw],
    and any latched and locked masks: when the entry's bit is set in both
    masks the line has [lw] and not [kw]; [lw] is in the line exactly when the
    latched bit is set; [kw] is in the line exactly when the locked bit is set
    and the latched bit is clear; with neither bit set the line has neither
    word. *)
Theorem latched_before_locked {hdr : XkbHeader} (e : ModifierEntry)
    (lw kw : string) (st : XkbStateRec.t) (ctrls : Z) :
  In e mods -> value e <> 0 -> latched e = Some lw -> locked e = Some kw ->
  let ws := line_words (status_line st ctrls) in
  let l := Z.land (XkbStateRec.latched_mods st) (value e) in
  let k := Z.land (XkbStateRec.locked_mods st) (value e) in
  (l <> 0 -> k <> 0 -> In lw ws /\ ~ In kw ws) /\
  (In lw ws <-> l <> 0) /\
  (In kw ws <-> k <> 0 /\ l = 0) /\
  (l = 0 -> k = 0 -> ~ In lw ws /\ ~ In kw ws).
Proof.
  intros He Hv Hlw Hkw ws l k. apply in_mods_entries in He; [|assumption].
  subst ws. rewrite line_words_status_line.
  pose proof (in_words_latched st ctrls e lw He Hlw) as HL.
  pose proof (in_words_locked st ctrls e kw He Hkw) as HK.
  fold l in HL, HK. fold k in HK.
  repeat split; try tauto.
Qed.

Lemma latched_before_locked_witness :
  let ws := line_words (@status_line X11_header (XkbStateRec.mk 4 0 4 4) 0) in
  (In "ctrl" ws /\ ~ In "CTRL" ws).
Proof.
  refine (proj1 (@latched_before_locked X11_header
            {| value := Z.shiftl 1 2; latched := Some "ctrl"; locked := Some "CTRL" |}
            "ctrl" "CTRL" (XkbStateRec.mk 4 0 4 4) 0 _ _ eq_refl eq_refl) _ _).
  - simpl. auto.
  - simpl. discriminate.
  - vm_compute. discriminate.
  - vm_compute. discriminate.
Defined.

Lemma well_spaced_plain (q : scan_state) (w rest : string) :
  is_word w = true ->
  well_spaced_from q (w ++ rest) = well_spaced_from AfterChar rest.
Proof.
  intros Hw. apply andb_prop in Hw as [Hne Hw].
  destruct w as [|c w]; [discriminate|]. clear Hne.
  revert q c Hw; induction w as [|c' w IH]; intros q c Hw;
    simpl in Hw; apply andb_prop in Hw as [Hc Hw];
    apply andb_prop in Hc as [Hsp Hnl]; apply negb_true_iff in Hsp, Hnl;
    cbn [append well_spaced_from]; rewrite Hsp, Hnl.
  - reflexivity.
  - apply (IH AfterChar c' Hw).
Qed.

Lemma well_spaced_concat (q : scan_state) (w : string) (ws : list string) :
  Forall (fun x => is_word x = true) (w :: ws) ->
  well_spaced_from q (String.concat " " (w :: ws) ++ endl) = true.
Proof.
  revert q w; induction ws as [|b ws IH]; intros q w Hall;
    inversion Hall as [|? ? Hw Hrest]; subst.
  - cbn [String.concat]. rewrite (well_spaced_plain _ _ _ Hw). reflexivity.
  - change (String.concat " " (w :: b :: ws))
      with (w ++ " " ++ String.concat " " (b :: ws)).
    rewrite !append_assoc, (well_spaced_plain _ _ _ Hw).
    change (well_spaced_from AfterChar (" " ++ String.concat " " (b :: ws) ++ endl))
      with (well_spaced_from AfterSpace (String.concat " " (b :: ws) ++ endl)).
    apply IH, Hrest.
Qed.

Lemma well_spaced_line (ws : list string) :
  Forall (fun x => is_word x = true) ws ->
  well_spaced (String.concat " " ws ++ endl) = true.
Proof.
  destruct ws as [|w ws]; [reflexivity|]. apply well_spaced_concat.
Qed.

Lemma words_none {hdr : XkbHeader} (st : XkbStateRec.t) (ctrls : Z) :
  (forall e, In e mods ->
     Z.land (XkbStateRec.latched_mods st) (value e) = 0
     /\ Z.land (XkbStateRec.locked_mods st) (value e) = 0) ->
  Z.land ctrls XkbStickyKeysMask = 0 ->
  Z.land ctrls XkbAccessXKeysMask = 0 ->
  words st ctrls = [].
Proof.
  intros Hm Hs Ha. unfold words, ctrl_words.
  apply truthy_false in Hs, Ha. rewrite Hs, Ha.
  unfold mod_words, entry_word. rewrite entries_mods. cbn [flat_map value].
  destruct (Hm _ (or_introl eq_refl)) as [L1 K1].
  destruct (Hm _ (or_intror (or_introl eq_refl))) as [L2 K2].
  destruct (Hm _ (or_intror (or_intror (or_introl eq_refl)))) as [L3 K3].
  destruct (Hm _ (or_intror (or_intror (or_intror (or_introl eq_refl))))) as [L4 K4].
  cbn [value] in *.
  apply truthy_false in L1, K1, L2, K2, L3, K3, L4, K4.
  change (Z.shiftl 1 2) with 4 in *. change (Z.shiftl 1 3) with 8 in *.
  change (Z.shiftl 1 6) with 64 in *.
  rewrite L1, K1, L2, K2, L3, K3, L4, K4. reflexivity.
Qed.

(** C3: when the controls are fetched successfully, one pass appends to the
    standard output exactly this line: the applicable words (for each entry
    of the table in turn its latched word if its bit is latched, else its
    locked word if its bit is locked; then [sticky], then [accessx], each if
    enabled), joined by single spaces and ended by a newline.  Each of these
    words has at least one character and neither a space nor a newline, and
    reading the line back gives the same words; so no space leads, trails or
    doubles.  With no bit of the table set in either mask and neither control
    enabled, the line is the newline alone. *)
Theorem status_line_shape {hdr : XkbHeader} (d : Display) (io : Stdio) :
  ctrls_status (server d) = Success ->
  let st := state (server d) in
  let ctrls := enabled_ctrls (server d) in
  let line := status_line st ctrls in
  let ws :=
    (flat_map (fun e => opt_word (entry_word st e)) (entries mods)
     ++ (if truthy (Z.land ctrls XkbStickyKeysMask) then ["sticky"] else [])
     ++ (if truthy (Z.land ctrls XkbAccessXKeysMask) then ["accessx"] else []))%list in
  report d io = Printed {| stdout := stdout io ++ line; stderr := stderr io |} /\
  line = String.concat " " ws ++ endl /\
  line_words line = ws /\
  Forall (fun w => is_word w = true) ws /\
  well_spaced line = true /\
  ((forall e, In e mods ->
      Z.land (XkbStateRec.latched_mods st) (value e) = 0
      /\ Z.land (XkbStateRec.locked_mods st) (value e) = 0) ->
   Z.land ctrls XkbStickyKeysMask = 0 ->
   Z.land ctrls XkbAccessXKeysMask = 0 ->
   line = endl).
Proof.
  intros Hok st ctrls line ws. subst line.
  change ws with (words st ctrls). clear ws. subst st ctrls.
  split; [now apply report_Success|].
  split; [apply status_line_words|].
  split; [apply line_words_status_line|].
  split; [apply words_are_words|].
  split.
  - rewrite status_line_words. apply well_spaced_line, words_are_words.
  - intros Hm Hs Ha. rewrite status_line_words, (words_none _ _ Hm Hs Ha).
    reflexivity.
Qed.

Lemma status_line_shape_witness :
  let srv := {| state_status := 0; state := XkbStateRec.mk 5 0 1 5;
                ctrls_status := 0; enabled_ctrls := 72 |} in
  let d := {| server := srv; queue := []; future := [] |} in
  @report X11_header d {| stdout := ""; stderr := "" |}
  = Printed {| stdout := "shift CTRL sticky accessx" ++ endl; stderr := "" |}
  /\ line_words (@status_line X11_header (state srv) (enabled_ctrls srv))
     = ["shift"; "CTRL"; "sticky"; "accessx"]
  /\ @report X11_header
       {| server := {| state_status := 0; state := XkbStateRec.mk 0 0 0 0;
                       ctrls_status := 0; enabled_ctrls := 1 |};
          queue := []; future := [] |}
       {| stdout := ""; stderr := "" |}
     = Printed {| stdout := endl; stderr := "" |}.
Proof.
  intros srv d.
  pose proof (@status_line_shape X11_header d {| stdout := ""; stderr := "" |}
                eq_refl) as [Hrep [_ [Hwords _]]].
  pose proof (@status_line_shape X11_header
    {| server := {| state_status := 0; state := XkbStateRec.mk 0 0 0 0;
                    ctrls_status := 0; enabled_ctrls := 1 |};
       queue := []; future := [] |}
    {| stdout := ""; stderr := "" |} eq_refl) as [Hrep0 [_ [_ [_ [_ Hempty]]]]].
  split; [exact Hrep|]. split; [exact Hwords|].
  cbn [server state enabled_ctrls stdout stderr] in Hrep0, Hempty.
  rewrite Hempty in Hrep0; [exact Hrep0 | | reflexivity | reflexivity].
  intros e He. unfold mods in He. simpl in He.
  destruct He as [H|[H|[H|[H|[H|[]]]]]]; subst; split; reflexivity.
Defined.

(** C4: with sticky keys enabled the line has the word [sticky] exactly once,
    every word in front of it is a modifier word and no word behind it is
    one; with AccessX keys enabled the line has the word [accessx] exactly
    once, as its last word. *)
Theorem controls_after_modifiers {hdr : XkbHeader} (st : XkbStateRec.t)
    (ctrls : Z) :
  let ws := line_words (status_line st ctrls) in
  (Z.land ctrls XkbStickyKeysMask <> 0 ->
   count_occ string_dec ws "sticky" = 1%nat /\
   exists pre post,
     ws = (pre ++ "sticky" :: post)%list /\
     Forall modifier_word pre /\
     Forall (fun w => ~ modifier_word w) post) /\
  (Z.land ctrls XkbAccessXKeysMask <> 0 ->
   count_occ string_dec ws "accessx" = 1%nat /\
   exists pre, ws = (pre ++ ["accessx"])%list).
Proof.
  intros ws. subst ws. rewrite line_words_status_line. unfold words.
  assert (Hnone : forall w, w = "sticky" \/ w = "accessx" ->
            count_occ string_dec (mod_words mods st) w = 0%nat).
  { intros w Hw. apply count_occ_not_In. intros Hin.
    apply (ctrl_word_not_modifier w Hw).
    pose proof (mod_words_modifier st) as Hall.
    rewrite Forall_forall in Hall. now apply Hall. }
  split; intros Hon; apply truthy_true in Hon;
    rewrite count_occ_app, Hnone by auto; unfold ctrl_words; rewrite Hon.
  - split.
    + destruct (truthy (Z.land ctrls XkbAccessXKeysMask)); reflexivity.
    + exists (mod_words mods st).
      exists (if truthy (Z.land ctrls XkbAccessXKeysMask) then ["accessx"] else []).
      split; [reflexivity|]. split; [apply mod_words_modifier|].
      destruct (truthy (Z.land ctrls XkbAccessXKeysMask)); constructor.
      * apply ctrl_word_not_modifier. now right.
      * constructor.
  - split.
    + destruct (truthy (Z.land ctrls XkbStickyKeysMask)); reflexivity.
    + exists (mod_words mods st
              ++ if truthy (Z.land ctrls XkbStickyKeysMask) then ["sticky"] else [])%list.
      now rewrite <- !app_assoc.
Qed.

Lemma controls_after_modifiers_witness :
  let ws := line_words (@status_line X11_header (XkbStateRec.mk 1 0 1 0) 72) in
  count_occ string_dec ws "sticky" = 1%nat /\
  count_occ string_dec ws "accessx" = 1%nat.
Proof.
  destruct (@controls_after_modifiers X11_header (XkbStateRec.mk 1 0 1 0) 72)
    as [Hs Ha].
  split.
  - apply Hs. vm_compute. discriminate.
  - apply Ha. vm_compute. discriminate.
Defined.

(** ** What the line depends on *)

Lemma land_lxor_clear (a x v : Z) :
  Z.land x v = 0 -> Z.land (Z.lxor a x) v = Z.land a v.
Proof.
  intros H. apply Z.bits_inj'. intros n Hn.
  rewrite !Z.land_spec, Z.lxor_spec.
  assert (Hx : Z.testbit (Z.land x v) n = false) by (rewrite H; apply Z.bits_0).
  rewrite Z.land_spec in Hx.
  destruct (Z.testbit a n), (Z.testbit x n), (Z.testbit v n);
    simpl in *; congruence.
Qed.

Lemma land_sub_mask (x m v : Z) :
  Z.land x m = 0 -> Z.land m v = v -> Z.land x v = 0.
Proof.
  intros Hx Hv. rewrite <- Hv, Z.land_assoc, Hx. apply Z.land_0_l.
Qed.

Lemma status_line_ext {hdr : XkbHeader} (st1 st2 : XkbStateRec.t) (c1 c2 : Z) :
  Forall (fun v =>
            Z.land (XkbStateRec.latched_mods st1) v
            = Z.land (XkbStateRec.latched_mods st2) v
            /\ Z.land (XkbStateRec.locked_mods st1) v
               = Z.land (XkbStateRec.locked_mods st2) v) table_bits ->
  Z.land c1 XkbStickyKeysMask = Z.land c2 XkbStickyKeysMask ->
  Z.land c1 XkbAccessXKeysMask = Z.land c2 XkbAccessXKeysMask ->
  status_line st1 c1 = status_line st2 c2.
Proof.
  intros Hbits Hs Ha. unfold table_bits in Hbits.
  inversion Hbits as [|? ? [L1 K1] H1]; subst; clear Hbits.
  inversion H1 as [|? ? [L2 K2] H2]; subst; clear H1.
  inversion H2 as [|? ? [L3 K3] H3]; subst; clear H2.
  inversion H3 as [|? ? [L4 K4] _]; subst; clear H3.
  unfold status_line, print_ctrls.
  cbn [mods print_mods value latched locked].
  change (Z.shiftl 1 2) with 4 in *. change (Z.shiftl 1 3) with 8 in *.
  change (Z.shiftl 1 6) with 64 in *.
  rewrite L1, K1, L2, K2, L3, K3, L4, K4, Hs, Ha. reflexivity.
Qed.

(** C9: two keyboard states that agree on the bits 1, 1<<2, 1<<3 and 1<<6 of
    the latched and of the locked mask and on the sticky-keys and AccessX-keys
    control bits are rendered as the same line; so flipping any other bits of
    the two masks, and changing the effective and base masks, leaves the line
    as it is. *)
Theorem status_line_table_bits_only {hdr : XkbHeader} :
  (forall (st1 st2 : XkbStateRec.t) (c1 c2 : Z),
      Forall (fun v =>
                Z.land (XkbStateRec.latched_mods st1) v
                = Z.land (XkbStateRec.latched_mods st2) v
                /\ Z.land (XkbStateRec.locked_mods st1) v
                   = Z.land (XkbStateRec.locked_mods st2) v) table_bits ->
      Z.land c1 XkbStickyKeysMask = Z.land c2 XkbStickyKeysMask ->
      Z.land c1 XkbAccessXKeysMask = Z.land c2 XkbAccessXKeysMask ->
      status_line st1 c1 = status_line st2 c2) /\
  (forall (m b m' b' l k x y c : Z),
      Z.land x (Z.lor 1 (Z.lor 4 (Z.lor 8 64))) = 0 ->
      Z.land y (Z.lor 1 (Z.lor 4 (Z.lor 8 64))) = 0 ->
      status_line (XkbStateRec.mk m' b' (Z.lxor l x) (Z.lxor k y)) c
      = status_line (XkbStateRec.mk m b l k) c).
Proof.
  split; [apply status_line_ext|].
  intros m b m' b' l k x y c Hx Hy.
  apply status_line_ext; [|reflexivity|reflexivity].
  unfold table_bits. cbn [XkbStateRec.latched_mods XkbStateRec.locked_mods].
  repeat constructor;
    apply land_lxor_clear;
    (eapply land_sub_mask; [eassumption | reflexivity]).
Qed.

Lemma status_line_table_bits_only_witness :
  @status_line X11_header (XkbStateRec.mk 0 0 (Z.lxor 9 2) (Z.lxor 4 16)) 8
  = @status_line X11_header (XkbStateRec.mk 13 0 9 4) 8.
Proof.
  apply (proj2 (@status_line_table_bits_only X11_header)); reflexivity.
Defined.

(** ** Waiting for events *)

Lemma next_arrival_events (fut : list Arrival) (e : XkbEvent.t) (d1 : Display) :
  next_arrival fut = Some (e, d1) ->
  List.length (flat_map arr_events fut) = S (events_left d1).
Proof.
  induction fut as [|a fut IH]; simpl; [discriminate|].
  destruct (arr_events a) as [|x q] eqn:Ha.
  - intros H. simpl. now apply IH.
  - intros [= <- <-]. unfold events_left. simpl.
    now rewrite length_app.
Qed.

Lemma XNextEvent_events (d : Display) (e : XkbEvent.t) (d1 : Display) :
  XNextEvent d = Some (e, d1) -> events_left d = S (events_left d1).
Proof.
  unfold XNextEvent, events_left at 1.
  destruct (queue d) as [|x q].
  - intros H. simpl. now apply (next_arrival_events _ e).
  - intros [= <- <-]. reflexivity.
Qed.

Lemma consume_nil (q : list XkbEvent.t) : consume q = [].
Proof. induction q; simpl; auto. Qed.

Lemma drain_spec (d : Display) :
  drain d = {| server := server d; queue := []; future := future d |}.
Proof.
  unfold drain, XPending. rewrite consume_nil.
  destruct d as [srv [|x q] fut]; reflexivity.
Qed.

Lemma events_left_drain (d : Display) : (events_left (drain d) <= events_left d)%nat.
Proof. rewrite drain_spec. unfold events_left. simpl. lia. Qed.

(** The inner loop, one event at a time. *)
Lemma wait_for_change_eq {hdr : XkbHeader} (xkb_event_type : Z)
    (st : XkbStateRec.t) (d : Display) :
  wait_for_change xkb_event_type st d =
  match XNextEvent d with
  | None => Asleep
  | Some (e, d1) =>
      if relevant xkb_event_type st e then Woken (drain d1)
      else wait_for_change xkb_event_type st d1
  end.
Proof.
  unfold wait_for_change at 1. cbn [wait_loop].
  destruct (XNextEvent d) as [[e d1]|] eqn:Hnext; [|reflexivity].
  rewrite (XNextEvent_events _ _ _ Hnext). unfold relevant.
  fold (wait_for_change xkb_event_type st d1).
  destruct (Z.eqb (XkbEvent.type e) xkb_event_type); [|reflexivity].
  cbn [andb].
  destruct (Z.eqb (XkbEvent.xkb_type e) XkbStateNotify && _); reflexivity.
Qed.

Lemma wait_loop_eq {hdr : XkbHeader} (n : nat) (xkb_event_type : Z)
    (st : XkbStateRec.t) (d : Display) :
  wait_loop (S n) xkb_event_type st d =
  match XNextEvent d with
  | None => Asleep
  | Some (e, d1) =>
      if relevant xkb_event_type st e then Woken (drain d1)
      else wait_loop n xkb_event_type st d1
  end.
Proof.
  cbn [wait_loop].
  destruct (XNextEvent d) as [[e d1]|]; [|reflexivity]. unfold relevant.
  destruct (Z.eqb (XkbEvent.type e) xkb_event_type); [|reflexivity].
  cbn [andb].
  destruct (Z.eqb (XkbEvent.xkb_type e) XkbStateNotify && _); reflexivity.
Qed.

(** The fuel of [wait_for_change] is enough: the inner loop either wakes up or
    blocks for ever. *)
Lemma wait_loop_enough {hdr : XkbHeader} (n : nat) (xkb_event_type : Z)
    (st : XkbStateRec.t) (d : Display) :
  (events_left d < n)%nat -> wait_loop n xkb_event_type st d <> Spinning.
Proof.
  revert d; induction n as [|n IH]; intros d Hn; [lia|].
  rewrite wait_loop_eq.
  destruct (XNextEvent d) as [[e d1]|] eqn:Hnext; [|discriminate].
  destruct (relevant xkb_event_type st e); [discriminate|].
  apply IH. apply XNextEvent_events in Hnext. lia.
Qed.

Lemma wait_for_change_total {hdr : XkbHeader} (xkb_event_type : Z)
    (st : XkbStateRec.t) (d : Display) :
  wait_for_change xkb_event_type st d <> Spinning.
Proof. apply wait_loop_enough. lia. Qed.

Lemma wait_loop_woken {hdr : XkbHeader} (n : nat) (xkb_event_type : Z)
    (st : XkbStateRec.t) (d d' : Display) :
  wait_loop n xkb_event_type st d = Woken d' ->
  (events_left d' < events_left d)%nat.
Proof.
  revert d; induction n as [|n IH]; intros d; [discriminate|].
  rewrite wait_loop_eq.
  destruct (XNextEvent d) as [[e d1]|] eqn:Hnext; [|discriminate].
  apply XNextEvent_events in Hnext.
  destruct (relevant xkb_event_type st e).
  - intros [= <-]. pose proof (events_left_drain d1). lia.
  - intros H. apply IH in H. lia.
Qed.

(** The outer loop never runs out of fuel when it has more fuel than there
    are events to come: it ends blocked or by [exit]. *)
Lemma main_loop_enough {hdr : XkbHeader} (n : nat) (xkb_event_type : Z)
    (d : Display) (io : Stdio) :
  (events_left d < n)%nat ->
  fst (main_loop n xkb_event_type d io) <> OutOfFuel.
Proof.
  revert d io; induction n as [|n IH]; intros d io Hn; [lia|].
  cbn [main_loop].
  destruct (report d io) as [io'|code io']; [|discriminate].
  destruct (wait_for_change xkb_event_type (state (server d)) d) as [d'| |] eqn:Hw.
  - apply IH. apply wait_loop_woken in Hw. lia.
  - discriminate.
  - now apply wait_for_change_total in Hw.
Qed.

Lemma relevant_true {hdr : XkbHeader} (xkb_event_type : Z) (st : XkbStateRec.t)
    (e : XkbEvent.t) :
  relevant xkb_event_type st e = true <->
  XkbEvent.type e = xkb_event_type
  /\ ~ (XkbEvent.xkb_type e = XkbStateNotify
        /\ XkbEvent.mods e = XkbStateRec.mods st
        /\ XkbEvent.base_mods e = XkbStateRec.base_mods st
        /\ XkbEvent.latched_mods e = XkbStateRec.latched_mods st
        /\ XkbEvent.locked_mods e = XkbStateRec.locked_mods st).
Proof.
  unfold relevant.
  rewrite andb_true_iff, negb_true_iff, Z.eqb_eq.
  rewrite <- not_true_iff_false, !andb_true_iff, !Z.eqb_eq.
  tauto.
Qed.

Lemma next_arrival_pending (fut : list Arrival) :
  match next_arrival fut with
  | Some (e, d1) => flat_map arr_events fut = e :: pending d1
  | None => flat_map arr_events fut = []
  end.
Proof.
  induction fut as [|a fut IH]; [reflexivity|].
  cbn [next_arrival flat_map].
  destruct (arr_events a) as [|x q]; [exact IH | reflexivity].
Qed.

Lemma XNextEvent_pending (d : Display) :
  match XNextEvent d with
  | Some (e, d1) => pending d = e :: pending d1
  | None => pending d = []
  end.
Proof.
  unfold XNextEvent, pending at 1 3.
  destruct (queue d) as [|x q]; [apply next_arrival_pending | reflexivity].
Qed.

(** The inner loop returns exactly when an event that counts is among those
    to come. *)
Lemma wait_for_change_woken {hdr : XkbHeader} (xkb_event_type : Z)
    (st : XkbStateRec.t) (d : Display) :
  Exists (fun e => relevant xkb_event_type st e = true) (pending d) ->
  exists d', wait_for_change xkb_event_type st d = Woken d'.
Proof.
  remember (pending d) as evs eqn:Hevs. intros Hex.
  revert d Hevs; induction Hex as [e evs He|e evs Hex IH]; intros d Hevs;
    rewrite wait_for_change_eq;
    pose proof (XNextEvent_pending d) as Hp;
    destruct (XNextEvent d) as [[e' d1]|]; rewrite <- Hevs in Hp;
    try discriminate; injection Hp as <- ->.
  - rewrite He. eexists. reflexivity.
  - destruct (relevant xkb_event_type st e); [eexists; reflexivity|].
    now apply IH.
Qed.

Lemma wait_for_change_asleep {hdr : XkbHeader} (xkb_event_type : Z)
    (st : XkbStateRec.t) (d : Display) :
  Forall (fun e => relevant xkb_event_type st e = false) (pending d) ->
  wait_for_change xkb_event_type st d = Asleep.
Proof.
  remember (pending d) as evs eqn:Hevs. intros Hall.
  revert d Hevs; induction Hall as [|e evs He Hall IH]; intros d Hevs;
    rewrite wait_for_change_eq;
    pose proof (XNextEvent_pending d) as Hp;
    destruct (XNextEvent d) as [[e' d1]|]; rewrite <- Hevs in Hp;
    try discriminate; try reflexivity; injection Hp as <- ->.
  rewrite He. now apply IH.
Qed.

(** ** The outer loop *)

Lemma main_loop_Success {hdr : XkbHeader} (n : nat) (xkb_event_type : Z)
    (d : Display) (io : Stdio) :
  ctrls_status (server d) = Success ->
  main_loop (S n) xkb_event_type d io =
  match wait_for_change xkb_event_type (state (server d)) d with
  | Woken d' => main_loop n xkb_event_type d' (printed d io)
  | Asleep => (Blocked, printed d io)
  | Spinning => (OutOfFuel, printed d io)
  end.
Proof.
  intros Hok. cbn [main_loop]. now rewrite (report_Success d io Hok).
Qed.

Lemma main_loop_stdout {hdr : XkbHeader} (n : nat) (xkb_event_type : Z)
    (d : Display) (io : Stdio) :
  exists rest, stdout (snd (main_loop n xkb_event_type d io)) = stdout io ++ rest.
Proof.
  revert d io; induction n as [|n IH]; intros d io.
  - exists "". simpl. now rewrite append_nil_r.
  - destruct (Z.eq_dec (ctrls_status (server d)) Success) as [Hok|Hko].
    + rewrite (main_loop_Success _ _ _ _ Hok).
      destruct (wait_for_change _ _ _) as [d'| |].
      * destruct (IH d' (printed d io)) as [rest Hrest].
        exists (status_line (state (server d)) (enabled_ctrls (server d)) ++ rest).
        rewrite Hrest. unfold printed. cbn [stdout]. apply append_assoc.
      * eexists. reflexivity.
      * eexists. reflexivity.
    + cbn [main_loop]. rewrite (report_failure d io Hko).
      eexists. reflexivity.
Qed.

Lemma discards_wait {hdr : XkbHeader} (xkb_event_type : Z)
    (st : XkbStateRec.t) (d0 d : Display) :
  discards xkb_event_type st d0 d ->
  wait_for_change xkb_event_type st d0 = wait_for_change xkb_event_type st d.
Proof.
  induction 1 as [d|d0 d0' d x Hnext Hrel _ IH]; [reflexivity|].
  now rewrite wait_for_change_eq, Hnext, Hrel.
Qed.

Lemma printed_text {hdr : XkbHeader} (d : Display) (io : Stdio) :
  printed d io
  = {| stdout := stdout io ++ line_text (server d); stderr := stderr io |}.
Proof. unfold printed, line_text. now rewrite status_line_words. Qed.

Lemma main_loop_failure {hdr : XkbHeader} (n : nat) (xkb_event_type : Z)
    (d : Display) (io : Stdio) :
  ctrls_status (server d) <> Success ->
  main_loop (S n) xkb_event_type d io =
  (Exited 1,
   {| stdout := stdout io ++ String.concat " " (mod_words mods (state (server d)));
      stderr := stderr io ++ "XkbGetControls() returned "
                  ++ fmt_d (ctrls_status (server d)) |}).
Proof.
  intros Hko. cbn [main_loop]. now rewrite (report_failure d io Hko).
Qed.

(** C5: a state notification of the extension whose effective, base, latched
    and locked masks equal those of the state [st] fetched by this pass is
    discarded, whatever the server answers by then: the inner loop goes on as
    if the event had not come, so it does not return on its account.  When a
    pass that fetched [st] comes to such an event after events that do not
    count, and nothing arrives behind it, the process stays blocked with the
    line of this pass as the last one printed. *)
Theorem unchanged_state_notify_discarded {hdr : XkbHeader}
    (xkb_event_type : Z) (st : XkbStateRec.t) (d d1 : Display) (e : XkbEvent.t) :
  XNextEvent d = Some (e, d1) ->
  XkbEvent.type e = xkb_event_type ->
  XkbEvent.xkb_type e = XkbStateNotify ->
  XkbEvent.mods e = XkbStateRec.mods st ->
  XkbEvent.base_mods e = XkbStateRec.base_mods st ->
  XkbEvent.latched_mods e = XkbStateRec.latched_mods st ->
  XkbEvent.locked_mods e = XkbStateRec.locked_mods st ->
  (forall n, wait_loop (S n) xkb_event_type st d = wait_loop n xkb_event_type st d1) /\
  wait_for_change xkb_event_type st d = wait_for_change xkb_event_type st d1 /\
  (XNextEvent d1 = None -> wait_for_change xkb_event_type st d = Asleep) /\
  forall d0 n io,
    state (server d0) = st ->
    discards xkb_event_type st d0 d ->
    ctrls_status (server d0) = Success ->
    XNextEvent d1 = None ->
    main_loop (S n) xkb_event_type d0 io
    = (Blocked,
       {| stdout := stdout io ++ line_text (server d0); stderr := stderr io |}).
Proof.
  intros Hnext Ht Hx Hm Hb Hl Hk.
  assert (Hrel : relevant xkb_event_type st e = false).
  { apply not_true_iff_false. rewrite relevant_true. tauto. }
  assert (Hwait : wait_for_change xkb_event_type st d
                  = wait_for_change xkb_event_type st d1).
  { now rewrite wait_for_change_eq, Hnext, Hrel. }
  assert (Hasleep : XNextEvent d1 = None ->
                    wait_for_change xkb_event_type st d = Asleep).
  { intros Hnone. rewrite Hwait, wait_for_change_eq, Hnone. reflexivity. }
  split; [|split; [exact Hwait|split; [exact Hasleep|]]].
  - intros n. now rewrite wait_loop_eq, Hnext, Hrel.
  - intros d0 n io Hst Hdis Hok Hnone.
    rewrite (main_loop_Success _ _ _ _ Hok), Hst.
    rewrite (discards_wait _ _ _ _ Hdis), (Hasleep Hnone).
    now rewrite printed_text.
Qed.

Lemma unchanged_state_notify_discarded_witness :
  let srv := {| state_status := 0; state := XkbStateRec.mk 0 0 0 0;
                ctrls_status := 0; enabled_ctrls := 9 |} in
  let srv1 := {| state_status := 0; state := XkbStateRec.mk 1 1 0 0;
                 ctrls_status := 0; enabled_ctrls := 9 |} in
  let key := XkbEvent.mk 2 0 0 0 0 0 in
  let notify := XkbEvent.mk 85 2 0 0 0 0 in
  let d0 := {| server := srv; queue := [];
               future := [ {| arr_server := srv1;
                              arr_events := [key; notify] |} ] |} in
  @main_loop X11_header 1 85 d0 {| stdout := ""; stderr := "" |}
  = (Blocked, {| stdout := "sticky" ++ endl; stderr := "" |}).
Proof.
  intros srv srv1 key notify d0.
  refine (proj2 (proj2 (proj2 (@unchanged_state_notify_discarded X11_header 85
            (state srv) {| server := srv1; queue := [notify]; future := [] |}
            {| server := srv1; queue := []; future := [] |} notify
            eq_refl eq_refl eq_refl eq_refl eq_refl eq_refl eq_refl)))
          d0 O {| stdout := ""; stderr := "" |} eq_refl _ eq_refl eq_refl).
  exact (@discards_step X11_header 85 (state srv) d0 _ _ key eq_refl eq_refl
           (discards_refl 85 (state srv) _)).
Defined.

(** C6, as the claim words it, fails: a controls notification of the
    extension is received and the inner loop returns, but the controls fetch
    of the next pass returns 11, so the process exits with status 1 and no new
    status line is printed: the standard output keeps the one newline of the
    line printed before the wait. *)
Lemma controls_notify_line_refuted :
  let srv := {| state_status := 0; state := XkbStateRec.mk 0 0 0 0;
                ctrls_status := 0; enabled_ctrls := 8 |} in
  let srv1 := {| state_status := 0; state := XkbStateRec.mk 1 0 1 0;
                 ctrls_status := 11; enabled_ctrls := 8 |} in
  let e := XkbEvent.mk 85 3 0 0 0 0 in
  let d := {| server := srv; queue := [];
              future := [ {| arr_server := srv1; arr_events := [e] |} ] |} in
  XNextEvent d = Some (e, {| server := srv1; queue := []; future := [] |}) /\
  @wait_for_change X11_header 85 (state srv) d
  = Woken {| server := srv1; queue := []; future := [] |} /\
  @main_loop X11_header 2 85 d {| stdout := ""; stderr := "" |}
  = (Exited 1, {| stdout := "sticky" ++ endl ++ "shift";
                  stderr := "XkbGetControls() returned 11" |}) /\
  count_nl (stdout (snd (@main_loop X11_header 2 85 d
                           {| stdout := ""; stderr := "" |}))) = 1%nat.
Proof. repeat split. Qed.

(** C6, amended: a controls notification or an AccessX notification of the
    extension makes the inner loop return, whatever its modifier fields are
    and whatever state the pass fetched: the loop returns whenever such an
    event is among those the connection delivers, and it returns at once when
    the event is the one it has just received.  The outer loop then runs its
    next pass on the display left by the drain: when the controls fetch of
    that pass succeeds, the new status line (the applicable words joined by
    single spaces, and a newline) is appended to the standard output behind
    the line of the pass that waited; when it fails, the process exits with
    status 1 with the modifier words and the diagnostic, and no new line. *)
Theorem controls_notify_wakes {hdr : XkbHeader}
    (XkbControlsNotify XkbAccessXNotify : Z)
    (xkb_event_type : Z) (st : XkbStateRec.t) (d : Display) (e : XkbEvent.t) :
  XkbControlsNotify <> XkbStateNotify ->
  XkbAccessXNotify <> XkbStateNotify ->
  XkbEvent.type e = xkb_event_type ->
  XkbEvent.xkb_type e = XkbControlsNotify
  \/ XkbEvent.xkb_type e = XkbAccessXNotify ->
  (In e (pending d) ->
   exists d', wait_for_change xkb_event_type st d = Woken d') /\
  forall d1,
    XNextEvent d = Some (e, d1) ->
    wait_for_change xkb_event_type st d = Woken (drain d1) /\
    (forall n, wait_loop (S n) xkb_event_type st d = Woken (drain d1)) /\
    forall d0 n io,
      state (server d0) = st ->
      discards xkb_event_type st d0 d ->
      ctrls_status (server d0) = Success ->
      main_loop (S n) xkb_event_type d0 io
      = main_loop n xkb_event_type
          {| server := server d1; queue := []; future := future d1 |}
          {| stdout := stdout io ++ line_text (server d0); stderr := stderr io |} /\
      (ctrls_status (server d1) = Success ->
       exists rest,
         stdout (snd (main_loop (S (S n)) xkb_event_type d0 io))
         = stdout io ++ line_text (server d0) ++ line_text (server d1) ++ rest) /\
      (ctrls_status (server d1) <> Success ->
       main_loop (S (S n)) xkb_event_type d0 io
       = (Exited 1,
          {| stdout := stdout io ++ line_text (server d0)
                         ++ String.concat " " (mod_words mods (state (server d1)));
             stderr := stderr io ++ "XkbGetControls() returned "
                         ++ fmt_d (ctrls_status (server d1)) |})).
Proof.
  intros Hc Ha Ht Hx.
  assert (Hrel : relevant xkb_event_type st e = true).
  { rewrite relevant_true. split; [assumption|].
    intros [Hs _]. destruct Hx as [Hx|Hx]; congruence. }
  split.
  { intros Hin. apply wait_for_change_woken, Exists_exists.
    exists e. split; [assumption | apply Hrel]. }
  intros d1 Hnext.
  assert (Hwait : wait_for_change xkb_event_type st d = Woken (drain d1)).
  { now rewrite wait_for_change_eq, Hnext, Hrel. }
  split; [apply Hwait|]. split.
  { intros n. now rewrite wait_loop_eq, Hnext, Hrel. }
  intros d0 n io Hst Hdis Hok.
  assert (Hstep : forall m, main_loop (S m) xkb_event_type d0 io
                  = main_loop m xkb_event_type
                      {| server := server d1; queue := []; future := future d1 |}
                      {| stdout := stdout io ++ line_text (server d0);
                         stderr := stderr io |}).
  { intros m. rewrite (main_loop_Success _ _ _ _ Hok), Hst.
    now rewrite (discards_wait _ _ _ _ Hdis), Hwait, drain_spec, printed_text. }
  split; [apply Hstep|]. split.
  - intros Hok1. rewrite Hstep, main_loop_Success by exact Hok1.
    rewrite printed_text. cbn [server stdout stderr]. clear Hwait.
    destruct (wait_for_change _ _ _) as [d'| |].
    + match goal with
      | |- context [main_loop n xkb_event_type d' ?io1] =>
          destruct (main_loop_stdout n xkb_event_type d' io1) as [rest Hrest]
      end.
      exists rest. rewrite Hrest. cbn [stdout].
      now rewrite !append_assoc.
    + exists "". cbn [snd stdout]. now rewrite append_nil_r, !append_assoc.
    + exists "". cbn [snd stdout]. now rewrite append_nil_r, !append_assoc.
  - intros Hko1. rewrite Hstep, main_loop_failure by exact Hko1.
    cbn [server stdout stderr]. now rewrite !append_assoc.
Qed.

Lemma controls_notify_wakes_witness :
  let srv := {| state_status := 0; state := XkbStateRec.mk 0 0 0 0;
                ctrls_status := 0; enabled_ctrls := 8 |} in
  let srv1 := {| state_status := 0; state := XkbStateRec.mk 0 0 0 0;
                 ctrls_status := 0; enabled_ctrls := 72 |} in
  let e := XkbEvent.mk 85 3 0 0 0 0 in
  let d := {| server := srv; queue := [];
              future := [ {| arr_server := srv1; arr_events := [e; e] |} ] |} in
  @wait_for_change X11_header 85 (state srv) d
  = Woken {| server := srv1; queue := []; future := [] |}
  /\ exists rest,
       stdout (snd (@main_loop X11_header 2 85 d {| stdout := ""; stderr := "" |}))
       = "" ++ ("sticky" ++ endl) ++ ("sticky accessx" ++ endl) ++ rest.
Proof.
  intros srv srv1 e d.
  pose proof (proj2 (@controls_notify_wakes X11_header 3 10 85 (state srv) d e
           ltac:(discriminate) ltac:(discriminate) eq_refl (or_introl eq_refl))
           {| server := srv1; queue := [e]; future := [] |} eq_refl)
    as [Hwake [_ Hrun]].
  split; [exact Hwake|].
  exact (proj1 (proj2 (Hrun d O {| stdout := ""; stderr := "" |} eq_refl
                         (discards_refl 85 (state srv) d) eq_refl)) eq_refl).
Defined.

(** C7, as the claim words it, fails: a burst of three state notifications
    arrives, the first one counts and the other two are dropped unread, but
    the controls fetch of the next pass returns 11, so the burst yields no
    printed status line: the process exits with status 1 and the standard
    output keeps the one newline of the line printed before the wait. *)
Lemma burst_line_refuted :
  let srv := {| state_status := 0; state := XkbStateRec.mk 0 0 0 0;
                ctrls_status := 0; enabled_ctrls := 8 |} in
  let srv1 := {| state_status := 0; state := XkbStateRec.mk 5 4 1 0;
                 ctrls_status := 11; enabled_ctrls := 8 |} in
  let press := XkbEvent.mk 85 2 4 4 0 0 in
  let latch := XkbEvent.mk 85 2 5 4 1 0 in
  let d := {| server := srv; queue := [];
              future := [ {| arr_server := srv1;
                             arr_events := [press; latch; latch] |} ] |} in
  XNextEvent d
  = Some (press, {| server := srv1; queue := [latch; latch]; future := [] |}) /\
  @wait_for_change X11_header 85 (state srv) d
  = Woken {| server := srv1; queue := []; future := [] |} /\
  @main_loop X11_header 2 85 d {| stdout := ""; stderr := "" |}
  = (Exited 1, {| stdout := "sticky" ++ endl ++ "shift";
                  stderr := "XkbGetControls() returned 11" |}) /\
  count_nl (stdout (snd (@main_loop X11_header 2 85 d
                           {| stdout := ""; stderr := "" |}))) = 1%nat.
Proof. repeat split. Qed.

(** C7, amended: when the inner loop of a pass that fetched [st] receives an
    event that counts (of the extension, and not a state notification
    repeating the masks of [st]), whatever else is queued behind it is taken
    off the connection without being looked at, and the loop returns with an
    empty queue.  The outer loop then goes on from that display, so the burst
    yields one printed status line at most, not one for each event: when
    nothing arrives later and the controls fetch of the next pass succeeds,
    the process prints, behind the line of the pass that waited, exactly one
    line, that of the state the server has after the burst, and blocks; when
    that fetch fails it prints no line and exits with status 1. *)
Theorem burst_coalesced {hdr : XkbHeader} (xkb_event_type : Z)
    (st : XkbStateRec.t) (d d1 : Display) (e : XkbEvent.t) :
  XNextEvent d = Some (e, d1) ->
  XkbEvent.type e = xkb_event_type ->
  ~ (XkbEvent.xkb_type e = XkbStateNotify
     /\ XkbEvent.mods e = XkbStateRec.mods st
     /\ XkbEvent.base_mods e = XkbStateRec.base_mods st
     /\ XkbEvent.latched_mods e = XkbStateRec.latched_mods st
     /\ XkbEvent.locked_mods e = XkbStateRec.locked_mods st) ->
  wait_for_change xkb_event_type st d = Woken (drain d1) /\
  (forall n, wait_loop (S n) xkb_event_type st d = Woken (drain d1)) /\
  drain d1 = {| server := server d1; queue := []; future := future d1 |} /\
  forall d0 n io,
    state (server d0) = st ->
    discards xkb_event_type st d0 d ->
    ctrls_status (server d0) = Success ->
    main_loop (S n) xkb_event_type d0 io
    = main_loop n xkb_event_type
        {| server := server d1; queue := []; future := future d1 |}
        {| stdout := stdout io ++ line_text (server d0); stderr := stderr io |} /\
    (ctrls_status (server d1) = Success ->
     future d1 = [] ->
     main_loop (S (S n)) xkb_event_type d0 io
     = (Blocked,
        {| stdout := stdout io ++ line_text (server d0) ++ line_text (server d1);
           stderr := stderr io |})) /\
    (ctrls_status (server d1) <> Success ->
     main_loop (S (S n)) xkb_event_type d0 io
     = (Exited 1,
        {| stdout := stdout io ++ line_text (server d0)
                       ++ String.concat " " (mod_words mods (state (server d1)));
           stderr := stderr io ++ "XkbGetControls() returned "
                       ++ fmt_d (ctrls_status (server d1)) |})).
Proof.
  intros Hnext Ht Hnot.
  assert (Hrel : relevant xkb_event_type st e = true)
    by (apply relevant_true; auto).
  assert (Hwait : wait_for_change xkb_event_type st d = Woken (drain d1))
    by now rewrite wait_for_change_eq, Hnext, Hrel.
  split; [exact Hwait|]. split.
  { intros n. now rewrite wait_loop_eq, Hnext, Hrel. }
  split; [apply drain_spec|].
  intros d0 n io Hst Hdis Hok.
  assert (Hstep : forall m, main_loop (S m) xkb_event_type d0 io
                  = main_loop m xkb_event_type
                      {| server := server d1; queue := []; future := future d1 |}
                      {| stdout := stdout io ++ line_text (server d0);
                         stderr := stderr io |}).
  { intros m. rewrite (main_loop_Success _ _ _ _ Hok), Hst.
    now rewrite (discards_wait _ _ _ _ Hdis), Hwait, drain_spec, printed_text. }
  split; [apply Hstep|]. split.
  - intros Hok1 Hfut. rewrite Hstep, main_loop_Success by exact Hok1.
    rewrite wait_for_change_eq. unfold XNextEvent. cbn [queue future].
    rewrite Hfut. cbn [next_arrival]. rewrite printed_text.
    cbn [server stdout stderr]. now rewrite append_assoc.
  - intros Hko1. rewrite Hstep, main_loop_failure by exact Hko1.
    cbn [server stdout stderr]. now rewrite !append_assoc.
Qed.

Lemma burst_coalesced_witness :
  let srv := {| state_status := 0; state := XkbStateRec.mk 0 0 0 0;
                ctrls_status := 0; enabled_ctrls := 1 |} in
  let srv1 := {| state_status := 0; state := XkbStateRec.mk 5 4 1 0;
                 ctrls_status := 0; enabled_ctrls := 9 |} in
  let key := XkbEvent.mk 2 0 0 0 0 0 in
  let press := XkbEvent.mk 85 2 5 4 1 0 in
  let latch := XkbEvent.mk 85 2 5 4 1 0 in
  let d0 := {| server := srv; queue := [];
               future := [ {| arr_server := srv1;
                              arr_events := [key; press; latch; latch] |} ] |} in
  @main_loop X11_header 2 85 d0 {| stdout := ""; stderr := "" |}
  = (Blocked, {| stdout := endl ++ "shift sticky" ++ endl; stderr := "" |}).
Proof.
  intros srv srv1 key press latch d0.
  pose proof (@burst_coalesced X11_header 85 (state srv)
            {| server := srv1; queue := [press; latch; latch]; future := [] |}
            {| server := srv1; queue := [latch; latch]; future := [] |} press
            eq_refl eq_refl) as H.
  refine (proj1 (proj2 (proj2 (proj2 (proj2 (H _))) d0 O
                   {| stdout := ""; stderr := "" |} eq_refl _ eq_refl))
            eq_refl eq_refl).
  - intros [_ [Hm _]]. discriminate Hm.
  - exact (@discards_step X11_header 85 (state srv) d0 _ _ key eq_refl eq_refl
             (discards_refl 85 (state srv) _)).
Defined.

(** ** Failures *)

Lemma ends_line_endl (s : string) : ends_line (s ++ endl) = true.
Proof.
  induction s as [|c s IH]; [reflexivity|].
  cbn [append ends_line]. rewrite IH.
  destruct (s ++ endl) eqn:H; [|reflexivity].
  destruct s; discriminate.
Qed.

(** The three failures in front of the loop: one line on the standard error,
    nothing on the standard output, exit status 1. *)
Lemma init_failure_diagnostics {hdr : XkbHeader} (fuel : nat) (env : Env) :
  XkbOpenDisplay env = None \/ XkbGetKeyboard env = false
  \/ XkbSelectEvents env = 0 ->
  exists msg,
    main fuel env = (Exited 1, {| stdout := ""; stderr := msg |})
    /\ ends_line msg = true.
Proof.
  intros H. unfold main, open_default_display. cbn [stdout stderr].
  change (String nl "") with endl.
  destruct (XkbOpenDisplay env) as [[display xkb_event_type]|].
  - destruct (XkbGetKeyboard env); cbn [negb].
    + destruct H as [H|[H|H]]; try discriminate.
      rewrite H. cbn [negb truthy Z.eqb].
      eexists. split; [reflexivity|].
      rewrite <- !append_assoc. apply ends_line_endl.
    + eexists. split; [reflexivity|].
      rewrite <- !append_assoc. apply ends_line_endl.
  - eexists. split; [reflexivity|].
    rewrite <- !append_assoc. apply ends_line_endl.
Qed.

Lemma main_loop_exit {hdr : XkbHeader} (n : nat) (xkb_event_type : Z)
    (d : Display) (io io' : Stdio) (code : Z) :
  main_loop n xkb_event_type d io = (Exited code, io') ->
  code = 1 /\
  exists status,
    status <> Success
    /\ stderr io' = stderr io ++ "XkbGetControls() returned " ++ fmt_d status.
Proof.
  revert d io; induction n as [|n IH]; intros d io; [discriminate|].
  destruct (Z.eq_dec (ctrls_status (server d)) Success) as [Hok|Hko].
  - rewrite (main_loop_Success _ _ _ _ Hok).
    destruct (wait_for_change _ _ _) as [d'| |]; try discriminate.
    intros H. apply IH in H. exact H.
  - cbn [main_loop]. rewrite (report_failure d io Hko).
    intros [= <- <-]. split; [reflexivity|].
    exists (ctrls_status (server d)). split; [assumption | reflexivity].
Qed.

(** The process never ends with status 0: a run ends blocked, or by
    [exit(1)]. *)
Lemma main_exit_status {hdr : XkbHeader} (fuel : nat) (env : Env) (code : Z) :
  fst (main fuel env) = Exited code -> code = 1.
Proof.
  unfold main, open_default_display.
  destruct (XkbOpenDisplay env) as [[display xkb_event_type]|];
    [|now intros [= <-]].
  destruct (XkbGetKeyboard env); cbn [negb]; [|now intros [= <-]].
  destruct (truthy (XkbSelectEvents env)); cbn [negb]; [|now intros [= <-]].
  destruct (main_loop fuel xkb_event_type display _) as [fin io'] eqn:Hrun.
  cbn [fst]. intros ->. now apply main_loop_exit in Hrun.
Qed.

(** C8, at the input where the code departs from it: the display opens, the
    keyboard description and the subscription succeed, shift is latched and
    [XkbGetControls] returns 11.  The process exits with status 1, but what it
    has written on the standard error, [XkbGetControls() returned 11], is not
    ended by a newline. *)
Theorem controls_failure_diagnostic_unterminated :
  let srv := {| state_status := 0; state := XkbStateRec.mk 1 0 1 0;
                ctrls_status := 11; enabled_ctrls := 0 |} in
  let env := {| DISPLAY := Some ":0";
                XkbOpenDisplay := Some ({| server := srv; queue := []; future := [] |}, 85);
                XkbGetKeyboard := true;
                XkbSelectEvents := 1 |} in
  @main X11_header 1 env
  = (Exited 1, {| stdout := "shift"; stderr := "XkbGetControls() returned 11" |})
  /\ ends_line (stderr (snd (@main X11_header 1 env))) = false.
Proof. split; reflexivity. Qed.

(** ** The status of the state fetch *)

Lemma next_arrival_restatus (f : Z -> Z) (fut : list Arrival) :
  next_arrival (map (restatus_arrival f) fut) =
  match next_arrival fut with
  | Some (e, d1) => Some (e, restatus f d1)
  | None => None
  end.
Proof.
  induction fut as [|a fut IH]; [reflexivity|].
  cbn [map next_arrival restatus_arrival arr_events arr_server].
  destruct (arr_events a); [exact IH | reflexivity].
Qed.

Lemma XNextEvent_restatus (f : Z -> Z) (d : Display) :
  XNextEvent (restatus f d) =
  match XNextEvent d with
  | Some (e, d1) => Some (e, restatus f d1)
  | None => None
  end.
Proof.
  unfold XNextEvent. cbn [restatus queue future server].
  destruct (queue d); [apply next_arrival_restatus | reflexivity].
Qed.

Lemma drain_restatus (f : Z -> Z) (d : Display) :
  drain (restatus f d) = restatus f (drain d).
Proof. rewrite !drain_spec. reflexivity. Qed.

Lemma events_left_restatus (f : Z -> Z) (d : Display) :
  events_left (restatus f d) = events_left d.
Proof.
  unfold events_left. cbn [restatus queue future]. f_equal.
  induction (future d) as [|a fut IH]; [reflexivity|].
  cbn [map flat_map restatus_arrival arr_events]. now rewrite !length_app, IH.
Qed.

Lemma wait_loop_restatus {hdr : XkbHeader} (f : Z -> Z) (n : nat)
    (xkb_event_type : Z) (st : XkbStateRec.t) (d : Display) :
  wait_loop n xkb_event_type st (restatus f d)
  = restatus_waited f (wait_loop n xkb_event_type st d).
Proof.
  revert d; induction n as [|n IH]; intros d; [reflexivity|].
  rewrite !wait_loop_eq, XNextEvent_restatus.
  destruct (XNextEvent d) as [[e d1]|]; [|reflexivity].
  destruct (relevant xkb_event_type st e); [|apply IH].
  cbn [restatus_waited]. now rewrite drain_restatus.
Qed.

Lemma report_restatus {hdr : XkbHeader} (f : Z -> Z) (d : Display) (io : Stdio) :
  report (restatus f d) io = report d io.
Proof. reflexivity. Qed.

Lemma main_loop_restatus {hdr : XkbHeader} (f : Z -> Z) (n : nat)
    (xkb_event_type : Z) (d : Display) (io : Stdio) :
  main_loop n xkb_event_type (restatus f d) io = main_loop n xkb_event_type d io.
Proof.
  revert d io; induction n as [|n IH]; intros d io; [reflexivity|].
  cbn [main_loop]. rewrite report_restatus.
  destruct (report d io) as [io'|code io']; [|reflexivity].
  unfold wait_for_change. rewrite events_left_restatus.
  change (state (server (restatus f d))) with (state (server d)).
  rewrite wait_loop_restatus.
  destruct (wait_loop _ _ _ d) as [d'| |]; cbn [restatus_waited];
    [apply IH | reflexivity | reflexivity].
Qed.

(** C10: the status [XkbGetState] returns is never looked at: replacing every
    such status, in any way, changes neither a pass nor a whole run of the
    loop, and a pass whose controls fetch succeeds prints its line and leaves
    the standard error alone.  A pass gives up exactly when [XkbGetControls]
    does not return [Success]; so a run of the loop that exits does so with
    status 1, after the diagnostic of a failed controls fetch. *)
Theorem state_fetch_status_unchecked {hdr : XkbHeader} :
  (forall (f : Z -> Z) (d : Display) (io : Stdio),
      report (restatus f d) io = report d io) /\
  (forall (f : Z -> Z) (n : nat) (xkb_event_type : Z) (d : Display) (io : Stdio),
      main_loop n xkb_event_type (restatus f d) io
      = main_loop n xkb_event_type d io) /\
  (forall (d : Display) (io : Stdio),
      ctrls_status (server d) = Success ->
      report d io = Printed (printed d io)) /\
  (forall (d : Display) (io : Stdio),
      ctrls_status (server d) <> Success <->
      exists io',
        report d io = Fatal 1 io'
        /\ stderr io' = stderr io ++ "XkbGetControls() returned "
                          ++ fmt_d (ctrls_status (server d))) /\
  (forall (n : nat) (xkb_event_type : Z) (d : Display) (io io' : Stdio) (code : Z),
      main_loop n xkb_event_type d io = (Exited code, io') ->
      code = 1 /\
      exists status,
        status <> Success
        /\ stderr io' = stderr io ++ "XkbGetControls() returned " ++ fmt_d status).
Proof.
  split; [apply @report_restatus|].
  split; [apply @main_loop_restatus|].
  split; [apply @report_Success|].
  split; [|apply @main_loop_exit].
  intros d io. split.
  - intros Hko. rewrite (report_failure d io Hko). eexists. split; reflexivity.
  - intros [io' [Hrep _]] Hok. rewrite (report_Success d io Hok) in Hrep.
    discriminate.
Qed.

Lemma state_fetch_status_unchecked_witness :
  let srv := {| state_status := 11; state := XkbStateRec.mk 4 0 0 4;
                ctrls_status := 0; enabled_ctrls := 65 |} in
  let d := {| server := srv; queue := []; future := [] |} in
  @report X11_header d {| stdout := ""; stderr := "" |}
  = Printed {| stdout := "CTRL accessx" ++ endl; stderr := "" |}.
Proof.
  intros srv d.
  exact (proj1 (proj2 (proj2 (@state_fetch_status_unchecked X11_header)))
           d {| stdout := ""; stderr := "" |} eq_refl).
Defined.

(** ** Further properties of the status line *)

Lemma status_line_render {hdr : XkbHeader} (st : XkbStateRec.t) (ctrls : Z) :
  status_line st ctrls =
  render (truthy (Z.land (XkbStateRec.latched_mods st) 1))
         (truthy (Z.land (XkbStateRec.locked_mods st) 1))
         (truthy (Z.land (XkbStateRec.latched_mods st) 4))
         (truthy (Z.land (XkbStateRec.locked_mods st) 4))
         (truthy (Z.land (XkbStateRec.latched_mods st) 8))
         (truthy (Z.land (XkbStateRec.locked_mods st) 8))
         (truthy (Z.land (XkbStateRec.latched_mods st) 64))
         (truthy (Z.land (XkbStateRec.locked_mods st) 64))
         (truthy (Z.land ctrls XkbStickyKeysMask))
         (truthy (Z.land ctrls XkbAccessXKeysMask)).
Proof. reflexivity. Qed.

(** X1: the words of a status line come in one fixed order: the word of
    shift, of ctrl, of alt, of super, then [sticky], then [accessx]; every
    word is one of these, no place is taken twice, so a line has six words at
    most. *)
Theorem line_words_in_order {hdr : XkbHeader} (st : XkbStateRec.t) (ctrls : Z) :
  let ws := line_words (status_line st ctrls) in
  increasing_below 6 (map slot ws) = true /\ (List.length ws <= 6)%nat.
Proof.
  cbv zeta. rewrite status_line_render.
  destruct (truthy (Z.land (XkbStateRec.latched_mods st) 1)),
    (truthy (Z.land (XkbStateRec.locked_mods st) 1)),
    (truthy (Z.land (XkbStateRec.latched_mods st) 4)),
    (truthy (Z.land (XkbStateRec.locked_mods st) 4)),
    (truthy (Z.land (XkbStateRec.latched_mods st) 8)),
    (truthy (Z.land (XkbStateRec.locked_mods st) 8)),
    (truthy (Z.land (XkbStateRec.latched_mods st) 64)),
    (truthy (Z.land (XkbStateRec.locked_mods st) 64)),
    (truthy (Z.land ctrls XkbStickyKeysMask)),
    (truthy (Z.land ctrls XkbAccessXKeysMask));
    vm_compute; split; first [reflexivity | lia].
Qed.

(** X2: a status line, newline included, is never longer than 36
    characters, the length of [shift ctrl alt super sticky accessx], and has
    exactly one newline. *)
Theorem status_line_length {hdr : XkbHeader} (st : XkbStateRec.t) (ctrls : Z) :
  (1 <= String.length (status_line st ctrls) <= 36)%nat
  /\ count_nl (status_line st ctrls) = 1%nat.
Proof.
  rewrite status_line_render.
  destruct (truthy (Z.land (XkbStateRec.latched_mods st) 1)),
    (truthy (Z.land (XkbStateRec.locked_mods st) 1)),
    (truthy (Z.land (XkbStateRec.latched_mods st) 4)),
    (truthy (Z.land (XkbStateRec.locked_mods st) 4)),
    (truthy (Z.land (XkbStateRec.latched_mods st) 8)),
    (truthy (Z.land (XkbStateRec.locked_mods st) 8)),
    (truthy (Z.land (XkbStateRec.latched_mods st) 64)),
    (truthy (Z.land (XkbStateRec.locked_mods st) 64)),
    (truthy (Z.land ctrls XkbStickyKeysMask)),
    (truthy (Z.land ctrls XkbAccessXKeysMask));
    vm_compute; repeat split; lia.
Qed.

Lemma in_words_ctrl {hdr : XkbHeader} (st : XkbStateRec.t) (ctrls : Z) :
  (In "sticky" (words st ctrls) <-> truthy (Z.land ctrls XkbStickyKeysMask) = true)
  /\ (In "accessx" (words st ctrls)
      <-> truthy (Z.land ctrls XkbAccessXKeysMask) = true).
Proof.
  assert (Hnot : forall w, w = "sticky" \/ w = "accessx" ->
            ~ In w (mod_words mods st)).
  { intros w Hw Hin. apply (ctrl_word_not_modifier w Hw).
    pose proof (mod_words_modifier st) as Hall.
    rewrite Forall_forall in Hall. now apply Hall. }
  unfold words. rewrite !in_app_iff. unfold ctrl_words.
  split; (split; [intros [H|H]; [now apply Hnot in H; auto|] | intros H; right]);
    destruct (truthy (Z.land ctrls XkbStickyKeysMask));
    destruct (truthy (Z.land ctrls XkbAccessXKeysMask));
    simpl in *; intuition (try discriminate; auto).
Qed.

Lemma shown_of_words {hdr : XkbHeader} (st1 st2 : XkbStateRec.t) (c1 c2 : Z)
    (e : ModifierEntry) :
  In e (entries mods) ->
  words st1 c1 = words st2 c2 ->
  shown_of st1 (value e) = shown_of st2 (value e).
Proof.
  intros He Hw.
  destruct (entry_labels_some e He) as [Hl Hk].
  pose proof (in_words_latched st1 c1 e _ He Hl) as L1.
  pose proof (in_words_latched st2 c2 e _ He Hl) as L2.
  pose proof (in_words_locked st1 c1 e _ He Hk) as K1.
  pose proof (in_words_locked st2 c2 e _ He Hk) as K2.
  rewrite Hw in L1, K1. rewrite <- truthy_true in L1, L2, K1, K2.
  rewrite <- truthy_false in K1, K2.
  unfold shown_of.
  destruct (truthy (Z.land (XkbStateRec.latched_mods st1) (value e))),
    (truthy (Z.land (XkbStateRec.latched_mods st2) (value e))),
    (truthy (Z.land (XkbStateRec.locked_mods st1) (value e))),
    (truthy (Z.land (XkbStateRec.locked_mods st2) (value e)));
    try reflexivity; exfalso;
    intuition discriminate.
Qed.

Lemma pick_shown (st1 st2 : XkbStateRec.t) (v : Z) (e : ModifierEntry)
    (p : printer) :
  shown_of st1 v = shown_of st2 v ->
  pick (truthy (Z.land (XkbStateRec.latched_mods st1) v))
       (truthy (Z.land (XkbStateRec.locked_mods st1) v)) e p
  = pick (truthy (Z.land (XkbStateRec.latched_mods st2) v))
         (truthy (Z.land (XkbStateRec.locked_mods st2) v)) e p.
Proof.
  unfold pick, shown_of.
  destruct (truthy (Z.land (XkbStateRec.latched_mods st1) v)),
    (truthy (Z.land (XkbStateRec.latched_mods st2) v)),
    (truthy (Z.land (XkbStateRec.locked_mods st1) v)),
    (truthy (Z.land (XkbStateRec.locked_mods st2) v));
    intros H; try discriminate H; reflexivity.
Qed.

(** X3: the line is a faithful picture of what it shows: two keyboard states
    give the same line exactly when, for each of the four bits of the table,
    the bit is latched in both, or locked without being latched in both, or
    neither in both, and the two controls are enabled alike. *)
Theorem status_line_decodes {hdr : XkbHeader} (st1 st2 : XkbStateRec.t)
    (c1 c2 : Z) :
  status_line st1 c1 = status_line st2 c2 <-> view st1 c1 = view st2 c2.
Proof.
  split.
  - intros Hline.
    assert (Hw : words st1 c1 = words st2 c2).
    { rewrite <- !line_words_status_line. now rewrite Hline. }
    destruct (in_words_ctrl st1 c1) as [S1 A1].
    destruct (in_words_ctrl st2 c2) as [S2 A2].
    rewrite Hw in S1, A1.
    unfold view, table_bits. cbn [map].
    pose proof (shown_of_words st1 st2 c1 c2
               {| value := 1; latched := Some "shift"; locked := Some "SHIFT" |}
               ltac:(simpl; auto) Hw) as H1.
    pose proof (shown_of_words st1 st2 c1 c2
               {| value := 4; latched := Some "ctrl"; locked := Some "CTRL" |}
               ltac:(simpl; auto) Hw) as H2.
    pose proof (shown_of_words st1 st2 c1 c2
               {| value := 8; latched := Some "alt"; locked := Some "ALT" |}
               ltac:(simpl; auto) Hw) as H3.
    pose proof (shown_of_words st1 st2 c1 c2
               {| value := 64; latched := Some "super"; locked := Some "SUPER" |}
               ltac:(simpl; auto) Hw) as H4.
    cbn [value] in *.
    change (Z.shiftl 1 2) with 4. change (Z.shiftl 1 3) with 8.
    change (Z.shiftl 1 6) with 64.
    rewrite H1, H2, H3, H4.
    f_equal; [f_equal|].
    + destruct (truthy (Z.land c1 XkbStickyKeysMask)),
        (truthy (Z.land c2 XkbStickyKeysMask)); try reflexivity;
        [symmetry|]; tauto.
    + destruct (truthy (Z.land c1 XkbAccessXKeysMask)),
        (truthy (Z.land c2 XkbAccessXKeysMask)); try reflexivity;
        [symmetry|]; tauto.
  - unfold view, table_bits. cbn [map]. intros [= H1 H2 H3 H4 Hs Ha].
    rewrite !status_line_render. unfold render.
    rewrite Hs, Ha.
    change (Z.shiftl 1 2) with 4 in H2. change (Z.shiftl 1 3) with 8 in H3.
    change (Z.shiftl 1 6) with 64 in H4.
    rewrite (pick_shown st1 st2 1 _ _ H1), (pick_shown st1 st2 4 _ _ H2),
      (pick_shown st1 st2 8 _ _ H3), (pick_shown st1 st2 64 _ _ H4).
    reflexivity.
Qed.

(** X4: the loop over a table stops at the first entry whose value is zero:
    that entry and whatever stands behind it are never read, so a table ended
    by a sentinel prints what the entries in front of the sentinel print. *)
Theorem print_mods_stops_at_sentinel (tbl rest : list ModifierEntry)
    (s : ModifierEntry) (st : XkbStateRec.t) (p : printer) :
  value s = 0 ->
  print_mods (tbl ++ s :: rest) st p = print_mods tbl st p.
Proof.
  intros Hs. revert p; induction tbl as [|e tbl IH]; intros p.
  - cbn [app print_mods]. now rewrite Hs.
  - cbn [app print_mods]. destruct (negb (Z.eqb (value e) 0)); [apply IH | reflexivity].
Qed.

Lemma print_mods_stops_at_sentinel_witness :
  let shift := {| value := 1; latched := Some "shift"; locked := Some "SHIFT" |} in
  let caps := {| value := 2; latched := Some "caps"; locked := Some "CAPS" |} in
  let sentinel := {| value := 0; latched := None; locked := None |} in
  print_mods ([shift] ++ sentinel :: [caps]) (XkbStateRec.mk 3 0 0 3) ("", true)
  = ("SHIFT", false).
Proof.
  intros shift caps sentinel.
  exact (print_mods_stops_at_sentinel [shift] [caps] sentinel
           (XkbStateRec.mk 3 0 0 3) ("", true) eq_refl).
Defined.

(** ** Further properties of the two loops *)


Lemma next_arrival_servers (fut : list Arrival) (e : XkbEvent.t) (d1 : Display) :
  next_arrival fut = Some (e, d1) ->
  incl (servers d1) (map arr_server fut).
Proof.
  induction fut as [|a fut IH]; cbn [next_arrival]; [discriminate|].
  destruct (arr_events a) as [|x q].
  - intros H. apply incl_tl. now apply IH.
  - intros [= <- <-]. unfold servers. cbn [server future map]. apply incl_refl.
Qed.

Lemma XNextEvent_servers (d : Display) (e : XkbEvent.t) (d1 : Display) :
  XNextEvent d = Some (e, d1) -> incl (servers d1) (servers d).
Proof.
  unfold XNextEvent. destruct (queue d) as [|x q].
  - intros H. apply incl_tl. now apply (next_arrival_servers _ e).
  - intros [= <- <-]. apply incl_refl.
Qed.

Lemma wait_loop_servers {hdr : XkbHeader} (n : nat) (xkb_event_type : Z)
    (st : XkbStateRec.t) (d d' : Display) :
  wait_loop n xkb_event_type st d = Woken d' -> incl (servers d') (servers d).
Proof.
  revert d; induction n as [|n IH]; intros d; [discriminate|].
  rewrite wait_loop_eq.
  destruct (XNextEvent d) as [[e d1]|] eqn:Hnext; [|discriminate].
  apply XNextEvent_servers in Hnext.
  destruct (relevant xkb_event_type st e).
  - intros [= <-]. rewrite drain_spec. exact Hnext.
  - intros H. apply IH in H. eapply incl_tran; eassumption.
Qed.

Lemma lines_cons {hdr : XkbHeader} (srv : Server) (srvs : list Server) :
  lines (srv :: srvs) = status_line (state srv) (enabled_ctrls srv) ++ lines srvs.
Proof.
  unfold lines. destruct srvs; cbn [map String.concat].
  - now rewrite append_nil_r.
  - reflexivity.
Qed.

(** X6: whatever a run of the loop writes on the standard output is behind
    what was there, and it is a sequence of whole status lines, each the line
    of answers the server gave at the start or after an arrival; there are at
    most as many lines as events delivered, plus the first one.  A run that
    blocks has printed a line at least and left the standard error alone; a
    run that exits has status 1, and has added to the lines the modifier
    words of the pass whose controls fetch failed, and the diagnostic. *)
Theorem run_prints_server_states {hdr : XkbHeader} (n : nat) (xkb_event_type : Z)
    (d : Display) (io io' : Stdio) (fin : Final) :
  main_loop n xkb_event_type d io = (fin, io') ->
  exists srvs,
    Forall (fun srv => In srv (servers d)) srvs /\
    (List.length srvs <= S (events_left d))%nat /\
    match fin with
    | Blocked =>
        srvs <> [] /\ stdout io' = stdout io ++ lines srvs /\ stderr io' = stderr io
    | OutOfFuel =>
        stdout io' = stdout io ++ lines srvs /\ stderr io' = stderr io
    | Exited code =>
        code = 1 /\
        exists srv,
          In srv (servers d) /\ ctrls_status srv <> Success /\
          stdout io' = stdout io ++ lines srvs
                         ++ String.concat " " (mod_words mods (state srv)) /\
          stderr io' = stderr io ++ "XkbGetControls() returned "
                         ++ fmt_d (ctrls_status srv)
    end.
Proof.
  revert d io; induction n as [|n IH]; intros d io.
  - intros [= <- <-]. exists []. split; [constructor|]. split; [simpl; lia|].
    split; [|reflexivity]. cbn. now rewrite append_nil_r.
  - destruct (Z.eq_dec (ctrls_status (server d)) Success) as [Hok|Hko].
    + rewrite (main_loop_Success _ _ _ _ Hok).
      destruct (wait_for_change xkb_event_type (state (server d)) d)
        as [d'| |] eqn:Hw.
      * intros Hrun. destruct (IH _ _ Hrun) as [srvs [Hin [Hlen Hfin]]].
        pose proof (wait_loop_servers _ _ _ _ _ Hw) as Hincl.
        pose proof (wait_loop_woken _ _ _ _ _ Hw) as Hless.
        exists (server d :: srvs). split; [|split].
        -- constructor; [now left|].
           eapply Forall_impl; [|exact Hin]. intros srv Hs. now apply Hincl.
        -- simpl. lia.
        -- rewrite lines_cons. unfold printed in Hfin. cbn [stdout stderr] in Hfin.
           destruct fin as [code| |].
           ++ destruct Hfin as [Hc [srv [Hs [Hf [Ho He]]]]].
              split; [exact Hc|]. exists srv.
              split; [now apply Hincl|]. split; [exact Hf|].
              split; [|exact He]. rewrite Ho, !append_assoc. reflexivity.
           ++ destruct Hfin as [_ [Ho He]].
              split; [discriminate|]. split; [|exact He].
              rewrite Ho, !append_assoc. reflexivity.
           ++ destruct Hfin as [Ho He]. split; [|exact He].
              rewrite Ho, !append_assoc. reflexivity.
      * intros [= <- <-]. exists [server d].
        split; [constructor; [now left | constructor]|].
        split; [simpl; lia|]. split; [discriminate|].
        split; [|reflexivity]. unfold printed, lines. cbn. reflexivity.
      * now apply wait_for_change_total in Hw.
    + cbn [main_loop]. rewrite (report_failure d io Hko).
      intros [= <- <-]. exists []. split; [constructor|]. split; [simpl; lia|].
      split; [reflexivity|]. exists (server d).
      split; [now left|]. split; [exact Hko|]. split; reflexivity.
Qed.

Lemma run_prints_server_states_witness :
  let srv := {| state_status := 0; state := XkbStateRec.mk 0 0 0 0;
                ctrls_status := 0; enabled_ctrls := 1 |} in
  let d := {| server := srv; queue := []; future := [] |} in
  exists srvs,
    Forall (fun s => In s (servers d)) srvs /\
    (List.length srvs <= 1)%nat /\
    srvs <> [] /\
    endl = "" ++ @lines X11_header srvs /\ "" = "".
Proof.
  intros srv d.
  exact (@run_prints_server_states X11_header 1 85 d
           {| stdout := ""; stderr := "" |} {| stdout := endl; stderr := "" |}
           Blocked eq_refl).
Defined.

(** X7: the fuel of the outer loop does not matter once there is more of it
    than events to deliver: any two such amounts give the same run, and the
    run ends blocked in [XNextEvent] or by [exit(1)]; it never ends with
    status 0. *)
Theorem main_loop_fuel {hdr : XkbHeader} (n m : nat) (xkb_event_type : Z)
    (d : Display) (io : Stdio) :
  (events_left d < n)%nat -> (events_left d < m)%nat ->
  main_loop n xkb_event_type d io = main_loop m xkb_event_type d io /\
  (fst (main_loop n xkb_event_type d io) = Blocked
   \/ fst (main_loop n xkb_event_type d io) = Exited 1).
Proof.
  intros Hn Hm. split.
  - revert m d io Hn Hm; induction n as [|n IH]; intros m d io Hn Hm; [lia|].
    destruct m as [|m]; [lia|]. cbn [main_loop].
    destruct (report d io) as [io1|code io1]; [|reflexivity].
    destruct (wait_for_change xkb_event_type (state (server d)) d)
      as [d'| |] eqn:Hw; try reflexivity.
    apply wait_loop_woken in Hw. apply IH; lia.
  - pose proof (main_loop_enough n xkb_event_type d io Hn) as Hfuel.
    destruct (main_loop n xkb_event_type d io) as [fin io'] eqn:Hrun.
    cbn [fst] in *. destruct fin as [code| |].
    + apply main_loop_exit in Hrun as [-> _]. now right.
    + now left.
    + contradiction.
Qed.

Lemma main_loop_fuel_witness :
  let srv := {| state_status := 0; state := XkbStateRec.mk 0 0 0 0;
                ctrls_status := 0; enabled_ctrls := 1 |} in
  let e := XkbEvent.mk 85 3 0 0 0 0 in
  let d := {| server := srv; queue := [e]; future := [] |} in
  let io := {| stdout := ""; stderr := "" |} in
  @main_loop X11_header 2 85 d io = @main_loop X11_header 7 85 d io.
Proof.
  intros srv e d io.
  refine (proj1 (@main_loop_fuel X11_header 2 7 85 d io _ _));
    vm_compute; lia.
Defined.

(** ** Further properties of the diagnostics *)

Lemma count_nl_app (a b : string) : count_nl (a ++ b) = (count_nl a + count_nl b)%nat.
Proof.
  induction a as [|c a IH]; [reflexivity|].
  cbn [append count_nl]. rewrite IH. lia.
Qed.

Lemma count_nl_uint (u : Decimal.uint) : count_nl (NilEmpty.string_of_uint u) = 0%nat.
Proof. induction u; simpl; auto. Qed.

Lemma count_nl_fmt_d (n : Z) : count_nl (fmt_d n) = 0%nat.
Proof.
  unfold fmt_d, NilZero.string_of_int, NilZero.string_of_uint.
  destruct (Z.to_int n) as [u|u].
  - destruct u; try reflexivity; apply (count_nl_uint (_ u)).
  - cbn [count_nl]. destruct u; try reflexivity; apply (count_nl_uint (_ u)).
Qed.

Lemma ends_line_count (s : string) : count_nl s = 0%nat -> ends_line s = false.
Proof.
  induction s as [|c s IH]; [reflexivity|].
  cbn [count_nl ends_line]. destruct (Ascii.eqb c nl); [discriminate|].
  intros H. destruct s; [reflexivity | now apply IH].
Qed.

(** X8: when the display does not open, the keyboard description is not
    obtained or the subscription is refused, and the value of [DISPLAY] has no
    newline in it, the process writes nothing on the standard output and
    exactly one line on the standard error, ended by its only newline, and
    exits with status 1, without entering the loop. *)
Theorem init_failure_one_line {hdr : XkbHeader} (fuel : nat) (env : Env) :
  count_nl (fmt_s (DISPLAY env)) = 0%nat ->
  XkbOpenDisplay env = None \/ XkbGetKeyboard env = false
  \/ XkbSelectEvents env = 0 ->
  exists msg,
    main fuel env = (Exited 1, {| stdout := ""; stderr := msg |})
    /\ count_nl msg = 1%nat /\ ends_line msg = true.
Proof.
  intros Hd H. unfold main, open_default_display. cbn [stdout stderr].
  change (String nl "") with endl.
  destruct (XkbOpenDisplay env) as [[display xkb_event_type]|].
  - destruct (XkbGetKeyboard env); cbn [negb].
    + destruct H as [H|[H|H]]; try discriminate.
      rewrite H. cbn [negb truthy Z.eqb].
      eexists. split; [reflexivity|]. split; reflexivity.
    + eexists. split; [reflexivity|]. split.
      * rewrite !count_nl_app, Hd. reflexivity.
      * rewrite <- !append_assoc. apply ends_line_endl.
  - eexists. split; [reflexivity|]. split.
    + rewrite !count_nl_app, Hd. reflexivity.
    + rewrite <- !append_assoc. apply ends_line_endl.
Qed.

Lemma init_failure_one_line_witness :
  exists msg,
    @main X11_header 0
      {| DISPLAY := None; XkbOpenDisplay := None; XkbGetKeyboard := true;
         XkbSelectEvents := 1 |}
    = (Exited 1, {| stdout := ""; stderr := msg |})
    /\ count_nl msg = 1%nat /\ ends_line msg = true.
Proof.
  exact (@init_failure_one_line X11_header 0
           {| DISPLAY := None; XkbOpenDisplay := None; XkbGetKeyboard := true;
              XkbSelectEvents := 1 |} eq_refl (or_introl eq_refl)).
Defined.

(** X9: whatever status other than [Success] the controls fetch returns, the
    pass gives up with status 1.  The standard output has then got the
    modifier words of the pass (for each entry of the table in turn its
    latched word if its bit is latched, else its locked word if its bit is
    locked), joined by single spaces, and neither a control word nor the
    newline of the line; the standard error has got the diagnostic
    [XkbGetControls() returned] and the status in decimal, which has no
    newline in it, so the standard error is left without a newline at its
    end. *)
Theorem controls_failure_no_newline {hdr : XkbHeader} (d : Display) (io : Stdio) :
  ctrls_status (server d) <> Success ->
  let st := state (server d) in
  let out :=
    String.concat " "
      (flat_map (fun e => opt_word (entry_word st e)) (entries mods)) in
  let msg := "XkbGetControls() returned " ++ fmt_d (ctrls_status (server d)) in
  report d io = Fatal 1 {| stdout := stdout io ++ out; stderr := stderr io ++ msg |}
  /\ count_nl out = 0%nat
  /\ count_nl msg = 0%nat
  /\ ends_line (stderr io ++ msg) = false.
Proof.
  intros Hko st out msg. subst out msg st.
  change (flat_map (fun e => opt_word (entry_word (state (server d)) e))
            (entries mods)) with (mod_words mods (state (server d))).
  split; [apply (report_failure d io Hko)|].
  assert (Hmsg : count_nl ("XkbGetControls() returned "
                            ++ fmt_d (ctrls_status (server d))) = 0%nat).
  { rewrite count_nl_app, count_nl_fmt_d. reflexivity. }
  split; [|split; [exact Hmsg|]].
  - pose proof (mod_words_modifier (state (server d))) as Hall.
    induction Hall as [|w ws Hw _ IH]; [reflexivity|].
    assert (Hcw : count_nl w = 0%nat).
    { destruct Hw as [e [He [H|H]]]; each_entry He; simpl in H;
        injection H as <-; reflexivity. }
    destruct ws as [|w' ws]; [exact Hcw|].
    change (String.concat " " (w :: w' :: ws))
      with (w ++ " " ++ String.concat " " (w' :: ws)).
    rewrite !count_nl_app, Hcw, IH. reflexivity.
  - remember ("XkbGetControls() returned " ++ fmt_d (ctrls_status (server d)))
      as msg eqn:Hm.
    assert (Hne : msg <> "") by (subst msg; discriminate).
    clear Hm. induction (stderr io) as [|c s IH].
    + now apply ends_line_count.
    + cbn [append ends_line]. rewrite IH.
      destruct (s ++ msg) eqn:Hs; [|reflexivity].
      destruct s; [contradiction | discriminate].
Qed.

Lemma controls_failure_no_newline_witness :
  let srv := {| state_status := 0; state := XkbStateRec.mk 12 0 8 4;
                ctrls_status := 17; enabled_ctrls := 72 |} in
  let d := {| server := srv; queue := []; future := [] |} in
  @report X11_header d {| stdout := ""; stderr := "" |}
  = Fatal 1 {| stdout := "CTRL alt"; stderr := "XkbGetControls() returned 17" |}.
Proof.
  intros srv d.
  refine (proj1 (@controls_failure_no_newline X11_header d
                   {| stdout := ""; stderr := "" |} _)).
  vm_compute. discriminate.
Defined.

(** X10: the inner loop compares the four masks, not the line: a state
    notification whose effective or base mask differs from the state fetched
    by the pass makes the loop return even when the latched mask, the locked
    mask and the controls are afterwards what they were, and the next pass
    then prints the same line once more. *)
Theorem unchanged_line_reprinted {hdr : XkbHeader} (xkb_event_type : Z)
    (d d1 : Display) (e : XkbEvent.t) (n : nat) (io : Stdio) :
  let st := state (server d) in
  let st1 := state (server d1) in
  let line := status_line st (enabled_ctrls (server d)) in
  XNextEvent d = Some (e, d1) ->
  XkbEvent.type e = xkb_event_type ->
  XkbEvent.mods e <> XkbStateRec.mods st
  \/ XkbEvent.base_mods e <> XkbStateRec.base_mods st ->
  XkbStateRec.latched_mods st1 = XkbStateRec.latched_mods st ->
  XkbStateRec.locked_mods st1 = XkbStateRec.locked_mods st ->
  enabled_ctrls (server d1) = enabled_ctrls (server d) ->
  ctrls_status (server d) = Success ->
  ctrls_status (server d1) = Success ->
  future d1 = [] ->
  main_loop (S (S n)) xkb_event_type d io
  = (Blocked, {| stdout := stdout io ++ line ++ line; stderr := stderr io |}).
Proof.
  intros st st1 line Hnext Ht Hdiff Hl Hk Hc Hok Hok1 Hfut.
  assert (Hrel : relevant xkb_event_type st e = true).
  { apply relevant_true. split; [assumption|]. tauto. }
  rewrite (main_loop_Success _ _ _ _ Hok). fold st.
  rewrite wait_for_change_eq, Hnext, Hrel, drain_spec.
  rewrite main_loop_Success by exact Hok1.
  rewrite wait_for_change_eq. unfold XNextEvent. cbn [queue future].
  rewrite Hfut. cbn [next_arrival].
  unfold printed. cbn [server stdout stderr]. fold st1. rewrite Hc.
  assert (Hsame : status_line st1 (enabled_ctrls (server d)) = line).
  { unfold line, status_line, print_ctrls.
    cbn [mods print_mods value latched locked]. now rewrite Hl, Hk. }
  now rewrite Hsame, append_assoc.
Qed.

Lemma unchanged_line_reprinted_witness :
  let srv := {| state_status := 0; state := XkbStateRec.mk 0 0 0 0;
                ctrls_status := 0; enabled_ctrls := 9 |} in
  let srv1 := {| state_status := 0; state := XkbStateRec.mk 1 1 0 0;
                 ctrls_status := 0; enabled_ctrls := 9 |} in
  let press := XkbEvent.mk 85 2 1 1 0 0 in
  let d := {| server := srv; queue := [];
              future := [ {| arr_server := srv1; arr_events := [press] |} ] |} in
  @main_loop X11_header 2 85 d {| stdout := ""; stderr := "" |}
  = (Blocked, {| stdout := "sticky" ++ endl ++ "sticky" ++ endl; stderr := "" |}).
Proof.
  intros srv srv1 press d.
  refine (@unchanged_line_reprinted X11_header 85 d
            {| server := srv1; queue := []; future := [] |} press O
            {| stdout := ""; stderr := "" |}
            eq_refl eq_refl _ eq_refl eq_refl eq_refl eq_refl eq_refl eq_refl).
  left. vm_compute. discriminate.
Defined.
